(** * Automated-App-Builder: the generation pipeline of [app/llm_generator.py]

    A shallow embedding of [decode_attachments], [summarize_attachment_meta],
    [_strip_code_block], [generate_readme_fallback] and [generate_app_code],
    together with the Python string, path and JSON operations they call. *)

From Stdlib Require Import List String Ascii NArith ZArith QArith Bool Lia Arith.
From Stdlib Require Import DecimalString.
Import ListNotations.

Close Scope Q_scope.
Local Open Scope nat_scope.
Local Open Scope list_scope.

(** ** Python text *)

(** A Python [str] is a sequence of Unicode code points. *)
Definition char := N.
Definition pystr := list char.
(** A Python [bytes] object. *)
Definition bytes := list N.

(** Source literals are written as Rocq strings and read as code points. *)
Definition lit (s : string) : pystr := map N_of_ascii (list_ascii_of_string s).
Arguments lit s%_string.

Definition NL : char := 10%N.

Module Str.

Fixpoint eqb (a b : pystr) : bool :=
  match a, b with
  | [], [] => true
  | c :: a', d :: b' => N.eqb c d && eqb a' b'
  | _, _ => false
  end.

(** [s.startswith(p)] *)
Fixpoint startswith (p s : pystr) : bool :=
  match p, s with
  | [], _ => true
  | _ :: _, [] => false
  | c :: p', d :: s' => N.eqb c d && startswith p' s'
  end.

(** [s.endswith(p)] *)
Definition endswith (p s : pystr) : bool := startswith (rev p) (rev s).

(** [s.endswith((p1, ..., pn))] *)
Definition endswith_any (ps : list pystr) (s : pystr) : bool :=
  existsb (fun p => endswith p s) ps.

(** [needle in hay] *)
Fixpoint contains (needle hay : pystr) : bool :=
  startswith needle hay ||
  match hay with
  | [] => false
  | _ :: hay' => contains needle hay'
  end.

(** [str.isspace] on one code point (CPython's [_PyUnicode_IsWhitespace]). *)
Definition isspace (c : char) : bool :=
  ((9 <=? c) && (c <=? 13) || (28 <=? c) && (c <=? 32) ||
   (c =? 133) || (c =? 160) || (c =? 5760) ||
   (8192 <=? c) && (c <=? 8202) || (c =? 8232) || (c =? 8233) ||
   (c =? 8239) || (c =? 8287) || (c =? 12288))%N.

Fixpoint lstrip (s : pystr) : pystr :=
  match s with
  | [] => []
  | c :: s' => if isspace c then lstrip s' else s
  end.

Definition rstrip (s : pystr) : pystr := rev (lstrip (rev s)).

(** [s.strip()] *)
Definition strip (s : pystr) : pystr := rstrip (lstrip s).

(** Truth value of a string: non-empty. *)
Definition nonempty (s : pystr) : bool :=
  match s with [] => false | _ :: _ => true end.

(** [sep.join(l)] *)
Fixpoint join (sep : pystr) (l : list pystr) : pystr :=
  match l with
  | [] => []
  | [x] => x
  | x :: l' => x ++ sep ++ join sep l'
  end.

Definition cons_head (c : char) (l : list pystr) : list pystr :=
  match l with
  | [] => [[c]]
  | h :: t => (c :: h) :: t
  end.

(** [s.split(sep, 1)] for a non-empty [sep]: one element when [sep] does
    not occur, otherwise the text before and after its first occurrence. *)
Fixpoint split1 (sep s : pystr) : list pystr :=
  match s with
  | [] => [[]]
  | c :: s' =>
      if startswith sep s then [[]; skipn (List.length sep) s]
      else cons_head c (split1 sep s')
  end.

(** [s.split(sep)] for a non-empty [sep]: a left-to-right scan over
    non-overlapping occurrences; [skip] counts the characters of a matched
    separator still to be passed over. *)
Fixpoint split_scan (sep : pystr) (skip : nat) (s : pystr) : list pystr :=
  match s with
  | [] => [[]]
  | c :: s' =>
      match skip with
      | S k => split_scan sep k s'
      | O =>
          if startswith sep s then [] :: split_scan sep (List.length sep - 1) s'
          else cons_head c (split_scan sep 0 s')
      end
  end.

Definition split (sep s : pystr) : list pystr := split_scan sep 0 s.

(** [s.replace(old, new)] for a non-empty [old]. *)
Definition replace (old new s : pystr) : pystr := join new (split old s).

(** [str(n)] for an [int]. *)
Definition of_Z (z : Z) : pystr := lit (NilZero.string_of_int (Z.to_int z)).

(** Lines of a text as file iteration yields them, line ends kept. *)
Fixpoint lines_keepends (s : pystr) : list pystr :=
  match s with
  | [] => []
  | c :: s' =>
      if N.eqb c NL then [c] :: lines_keepends s'
      else match lines_keepends s' with
           | [] => [[c]]
           | l :: t => (c :: l) :: t
           end
  end.

End Str.

(** ** Exceptions and results *)

(** The exception classes that the pipeline can meet. *)
Inductive exn :=
| AttributeError
| IndexError
| KeyError
| TypeError
| ValueError
| BinasciiError
| OSError
| RequestException     (* requests.post: network failure or timeout *)
| HTTPError            (* raise_for_status on an error status *)
| JSONDecodeError      (* response.json() on a body that is not JSON *)
| EmptyGeneration.     (* the Exception raised at line 181 *)

Inductive result (A : Type) :=
| Ok (a : A)
| Raise (e : exn).
Arguments Ok {A} a.
Arguments Raise {A} e.

Definition bind {A B : Type} (r : result A) (k : A -> result B) : result B :=
  match r with
  | Ok a => k a
  | Raise e => Raise e
  end.

Notation "x <- r ;; k" := (bind r (fun x => k))
  (at level 61, r at next level, right associativity).

(** ** Parsed JSON, as [response.json()] returns it *)

Set Warnings "-register-all".

Inductive json :=
| JNull
| JBool (b : bool)
| JInt (z : Z)
| JFloat (q : Q)
| JStr (s : pystr)
| JArr (l : list json)
| JObj (kvs : list (pystr * json)).   (* a dict: each key once *)

Module Py.

Fixpoint assoc (k : pystr) (kvs : list (pystr * json)) : option json :=
  match kvs with
  | [] => None
  | (k', v) :: rest => if Str.eqb k k' then Some v else assoc k rest
  end.

(** [v.get(key, default)] *)
Definition get (v : json) (key : pystr) (default : json) : result json :=
  match v with
  | JObj kvs =>
      Ok (match assoc key kvs with Some x => x | None => default end)
  | _ => Raise AttributeError
  end.

(** [v[0]] *)
Definition index0 (v : json) : result json :=
  match v with
  | JArr (x :: _) => Ok x
  | JArr [] => Raise IndexError
  | JStr (c :: _) => Ok (JStr [c])
  | JStr [] => Raise IndexError
  | JObj _ => Raise KeyError
  | _ => Raise TypeError
  end.

(** Truth value, as [not v] tests it. *)
Definition truthy (v : json) : bool :=
  match v with
  | JNull => false
  | JBool b => b
  | JInt z => negb (Z.eqb z 0)
  | JFloat q => negb (Z.eqb (Qnum q) 0)
  | JStr s => Str.nonempty s
  | JArr l => match l with [] => false | _ => true end
  | JObj kvs => match kvs with [] => false | _ => true end
  end.

Definition is_str (needle : pystr) (v : json) : bool :=
  match v with
  | JStr s => Str.eqb needle s
  | _ => false
  end.

(** [needle in v] for a string [needle]. *)
Definition contains (needle : pystr) (v : json) : result bool :=
  match v with
  | JStr s => Ok (Str.contains needle s)
  | JArr l => Ok (existsb (is_str needle) l)
  | JObj kvs => Ok (existsb (fun kv => Str.eqb needle (fst kv)) kvs)
  | _ => Raise TypeError
  end.

End Py.

(** ** The environment of a call *)

(** What the remote endpoint does with one request. An answer whose status
    is not 2xx carries its status code and its body, parsed when it is
    JSON: whether such an answer is refused is decided by
    [raise_for_status], which looks at the code. *)
Inductive http_outcome :=
| NetworkError                 (* requests.post raises: no connection *)
| Timeout                      (* requests.post raises after 60 seconds *)
| BadStatus (code : N) (body : option json)
                               (* an answer with a status that is not 2xx *)
| BodyNotJson                  (* a 2xx answer; response.json() raises *)
| Body (parsed : json).        (* a 2xx answer; the body parses to this *)

(** [response.raise_for_status()] raises for the client and server error
    statuses, 400 to 599, and for no other. *)
Definition raises_for_status (code : N) : bool :=
  ((400 <=? code) && (code <? 600))%N.

Definition is_2xx (code : N) : bool :=
  ((200 <=? code) && (code <? 300))%N.

(** A file as [open(p, "r")] finds it. *)
Inductive file_status :=
| Unreadable (err : pystr)     (* open raises; [err] is the text of the error *)
| Content (b : bytes).

(** The files: [resolve] gives the file that a path leads to, under one
    canonical name, so that two paths that lead to one file (by way of
    [..], say) share it; [store] holds the files by canonical name. *)
Record filesystem := {
  resolve : pystr -> pystr;
  store : pystr -> file_status
}.

(** The file found at a path. *)
Definition fs_read (fs : filesystem) (p : pystr) : file_status :=
  store fs (resolve fs p).

Coercion fs_read : filesystem >-> Funclass.

(** A completed write of [d] at path [p]: the file that [p] leads to holds
    [d], under every path that leads to it. *)
Definition fs_write (fs : filesystem) (p : pystr) (d : bytes) : filesystem :=
  {| resolve := resolve fs;
     store := fun file =>
       if Str.eqb file (resolve fs p) then Content d else store fs file |}.

(** The library and operating-system behaviour that the source relies on and
    does not define. The [print] calls of the source write to the standard
    output, which is not part of the model: they are taken to succeed. *)
Record Env := {
  (** [base64.b64decode]; [None] when it raises. *)
  b64decode : pystr -> option bytes;
  (** Whether [open(path, "wb")] and the write that follows both go
    through. The answer for a path is taken to hold for the whole call. *)
  open_wb_ok : pystr -> bool;
  (** What an attempt that does not go through leaves of the file: [None]
    when [open] itself raises and the file is untouched; the bytes written
    so far when the file was opened, hence emptied, and [f.write] raises. *)
  failed_write_leaves : pystr -> bytes -> option bytes;
  (** What text mode makes of the bytes of a file: utf-8 decoding with
    [errors="ignore"] and the translation of line ends. *)
  decode_text : bytes -> pystr;
  (** [repr] of a [str]. *)
  repr_str : pystr -> pystr;
  (** The answer of the endpoint to a prompt. *)
  post : pystr -> http_outcome
}.

(** ** Paths: [TMP_DIR / name] and [str(path)] on a POSIX system *)

Definition TMP_DIR : pystr := lit "/tmp/llm_attachments".

Module Path.

Definition slash : pystr := lit "/".

Definition root (s : pystr) : pystr :=
  if Str.startswith (lit "//") s && negb (Str.startswith (lit "///") s)
  then lit "//"
  else if Str.startswith slash s then slash else [].

Definition parts (s : pystr) : list pystr :=
  filter (fun p => Str.nonempty p && negb (Str.eqb p (lit ".")))
         (Str.split slash s).

(** [str(PurePosixPath(s))] *)
Definition normalize (s : pystr) : pystr :=
  match root s ++ Str.join slash (parts s) with
  | [] => lit "."
  | p => p
  end.

(** [str(TMP_DIR / name)]: an absolute [name] replaces the directory. *)
Definition tmp_join (name : pystr) : pystr :=
  if Str.startswith slash name then normalize name
  else normalize (TMP_DIR ++ slash ++ name).

End Path.

(** ** Attachments *)

(** An input attachment, with string fields as the data model has them;
    [None] stands for a key that is absent (and, for [att_name], also for
    the value [None]). *)
Record Attachment := {
  att_name : option pystr;
  att_url : option pystr
}.

Record DecodedAttachment := {
  da_name : pystr;
  da_path : pystr;
  da_mime : pystr;
  da_size : nat
}.

(** [att.get("name") or "attachment"] *)
Definition name_or_default (att : Attachment) : pystr :=
  match att_name att with
  | Some n => if Str.nonempty n then n else lit "attachment"
  | None => lit "attachment"
  end.

(** [att.get("url", "")] *)
Definition url_or_empty (att : Attachment) : pystr :=
  match att_url att with
  | Some u => u
  | None => []
  end.

(** Line 34: [header.split(";")[0].replace("data:", "")]. *)
Definition mime_of_header (header : pystr) : pystr :=
  Str.replace (lit "data:") [] (hd [] (Str.split (lit ";") header)).

(** Lines 37 and 38 when they do not go through. *)
Definition fs_failed_write (E : Env) (fs : filesystem) (path : pystr)
  (data : bytes) : filesystem :=
  match failed_write_leaves E path data with
  | None => fs
  | Some partial => fs_write fs path partial
  end.

(** The body of the [try] of [decode_attachments] for one attachment: the
    file system after it, and the entry appended or the exception raised. *)
Definition decode_try (E : Env) (fs : filesystem) (name url : pystr)
  : filesystem * result DecodedAttachment :=
  match Str.split1 (lit ",") url with
  | [header; b64data] =>
      let mime := mime_of_header header in
      match b64decode E b64data with
      | None => (fs, Raise BinasciiError)
      | Some data =>
          let path := Path.tmp_join name in
          if open_wb_ok E path
          then (fs_write fs path data,
                Ok {| da_name := name; da_path := path;
                      da_mime := mime; da_size := List.length data |})
          else (fs_failed_write E fs path data, Raise OSError)
      end
  | _ => (fs, Raise ValueError)
  end.

(** One turn of the loop of [decode_attachments]. *)
Definition decode_one (E : Env) (fs : filesystem) (att : Attachment)
  : filesystem * list DecodedAttachment :=
  let name := name_or_default att in
  let url := url_or_empty att in
  if negb (Str.startswith (lit "data:") url) then (fs, [])
  else match decode_try E fs name url with
       | (fs', Ok d) => (fs', [d])
       | (fs', Raise _) => (fs', [])
       end.

Fixpoint decode_attachments (E : Env) (fs : filesystem)
  (attachments : list Attachment) : filesystem * list DecodedAttachment :=
  match attachments with
  | [] => (fs, [])
  | att :: rest =>
      let '(fs1, saved1) := decode_one E fs att in
      let '(fs2, saved2) := decode_attachments E fs1 rest in
      (fs2, saved1 ++ saved2)
  end.

(** ** Attachment summaries *)

(** What can be raised inside the [try] of [summarize_attachment_meta], each
    with the text that [str(e)] gives. *)
Inductive read_exn :=
| ReadOSError (msg : pystr)    (* open fails *)
| TellDisabled                 (* f.tell() while iteration has it disabled *)
| StopIteration.               (* next(f) at the end of the file *)

Definition read_exn_text (e : read_exn) : pystr :=
  match e with
  | ReadOSError msg => msg
  | TellDisabled => lit "telling position disabled by next() call"
  | StopIteration => []
  end.

(** A text file open for reading: its lines, its size in bytes, the lines not
    yet read, and whether [tell] is allowed. Iteration disables [tell] and
    reaching the end of the file allows it again, so that [tell] is only
    ever answered at the start or at the end of the file. *)
Record text_file := {
  tf_lines : list pystr;
  tf_size : nat;
  tf_rest : list pystr;
  tf_telling : bool
}.

Module File.

Definition open_text (text : pystr) (size : nat) : text_file :=
  {| tf_lines := Str.lines_keepends text; tf_size := size;
     tf_rest := Str.lines_keepends text; tf_telling := true |}.

(** [f.seek(0)] *)
Definition seek0 (f : text_file) : text_file :=
  {| tf_lines := tf_lines f; tf_size := tf_size f;
     tf_rest := tf_lines f; tf_telling := tf_telling f |}.

(** [next(f)]: the line or [StopIteration], and the file afterwards. *)
Definition next (f : text_file) : (read_exn + pystr) * text_file :=
  match tf_rest f with
  | [] => (inl StopIteration,
           {| tf_lines := tf_lines f; tf_size := tf_size f;
              tf_rest := []; tf_telling := true |})
  | l :: rest => (inr l,
           {| tf_lines := tf_lines f; tf_size := tf_size f;
              tf_rest := rest; tf_telling := false |})
  end.

(** [f.tell()] *)
Definition tell (f : text_file) : read_exn + nat :=
  if tf_telling f
  then inr (match tf_rest f with [] => tf_size f | _ :: _ => 0 end)
  else inl TellDisabled.

(** [sum(1 for line in f)]: reads to the end and counts the lines read. *)
Fixpoint count_rest (rest : list pystr) : nat :=
  match rest with
  | [] => 0
  | _ :: rest' => 1 + count_rest rest'
  end.

Definition count_lines (f : text_file) : nat * text_file :=
  (count_rest (tf_rest f),
   {| tf_lines := tf_lines f; tf_size := tf_size f;
      tf_rest := []; tf_telling := true |}).

End File.

(** The list comprehension of line 65, for [k] turns of its [range]: each
    turn first tests [f.tell() < 1000] and only then calls [next(f)]. *)
Fixpoint csv_lines (k : nat) (f : text_file) : read_exn + list pystr :=
  match k with
  | O => inr []
  | S k' =>
      match File.tell f with
      | inl e => inl e
      | inr pos =>
          if pos <? 1000 then
            match File.next f with
            | (inl e, _) => inl e
            | (inr l, f') =>
                match csv_lines k' f' with
                | inl e => inl e
                | inr ls => inr (Str.strip l :: ls)
                end
            end
          else csv_lines k' f
      end
  end.

(** The [.csv] branch, lines 64 to 67. *)
Definition csv_preview (f : text_file) : read_exn + pystr :=
  let f0 := File.seek0 f in
  let '(n, f1) := File.count_lines f0 in
  match csv_lines (Nat.min 3 n) f1 with
  | inl e => inl e
  | inr lines => inr (Str.join (lit "\n") lines)
  end.

Definition text_suffixes : list pystr :=
  [lit ".md"; lit ".txt"; lit ".json"; lit ".csv"].

Definition preview_line (nm mime preview : pystr) : pystr :=
  lit "- " ++ nm ++ lit " (" ++ mime ++ lit "): preview: " ++ preview.

Definition binary_line (nm mime : pystr) (size : nat) : pystr :=
  lit "- " ++ nm ++ lit " (" ++ mime ++ lit "): " ++ Str.of_Z (Z.of_nat size)
  ++ lit " bytes (Binary file, use as-is or encode to b64 if needed)".

Definition failure_line (nm mime err : pystr) : pystr :=
  lit "- " ++ nm ++ lit " (" ++ mime ++ lit "): (could not read preview: "
  ++ err ++ lit ")".

(** The body of the [try] of [summarize_attachment_meta] for one entry. *)
Definition summary_try (E : Env) (fs : filesystem) (s : DecodedAttachment)
  : read_exn + pystr :=
  let nm := da_name s in
  let mime := da_mime s in
  if Str.startswith (lit "text") mime || Str.endswith_any text_suffixes nm then
    match fs (da_path s) with
    | Unreadable err => inl (ReadOSError err)
    | Content b =>
        let text := decode_text E b in
        if Str.endswith (lit ".csv") nm then
          match csv_preview (File.open_text text (List.length b)) with
          | inl e => inl e
          | inr preview => inr (preview_line nm mime preview)
          end
        else
          let data := firstn 1000 text in
          inr (preview_line nm mime
                 (firstn 1000 (Str.replace [NL] (lit "\n") data)))
    end
  else inr (binary_line nm mime (da_size s)).

Definition summarize_one (E : Env) (fs : filesystem) (s : DecodedAttachment)
  : pystr :=
  match summary_try E fs s with
  | inr line => line
  | inl e => failure_line (da_name s) (da_mime s) (read_exn_text e)
  end.

Definition summarize_attachment_meta (E : Env) (fs : filesystem)
  (saved : list DecodedAttachment) : pystr :=
  Str.join (lit "\n") (map (summarize_one E fs) saved).

(** ** Response extraction *)

Definition FENCE : pystr := lit "```".
Definition SEPARATOR : pystr := lit "---README.md---".

(** Lines 89 to 92: what is returned for the first non-blank [part]. *)
Definition strip_part (part : pystr) : pystr :=
  match Str.split1 [NL] part with
  | [l0; l1] =>
      if negb (Str.startswith (lit "<") (Str.strip l0)) then Str.strip l1
      else Str.strip part
  | _ => Str.strip part
  end.

(** The [for] loop of lines 86 to 92; [None] when it ends without a return. *)
Fixpoint first_block (parts : list pystr) : option pystr :=
  match parts with
  | [] => None
  | part :: rest =>
      if Str.nonempty (Str.strip part) then Some (strip_part part)
      else first_block rest
  end.

Definition _strip_code_block (text : pystr) : pystr :=
  if Str.contains FENCE text then
    match first_block (tl (Str.split FENCE text)) with
    | Some inner => inner
    | None => Str.strip text
    end
  else Str.strip text.

(** ** The fallback documents *)

(** [checks or []] *)
Definition checks_or_empty (checks : option (list pystr)) : list pystr :=
  match checks with
  | Some l => l
  | None => []
  end.

Definition FALLBACK_NOTE : pystr :=
  lit "This README was generated as a fallback because the LLM did not return a valid response.".

Definition generate_readme_fallback (brief : pystr)
  (checks : option (list pystr)) (attachments_meta : pystr) (round_num : Z)
  : pystr :=
  let checks_text := Str.join (lit "\n") (checks_or_empty checks) in
  let att_text := attachments_meta in
  lit "# Auto-generated README (Round " ++ Str.of_Z round_num ++ lit ")

**Project brief:** " ++ brief ++ lit "

**Attachments:**
" ++ att_text ++ lit "

**Checks to meet:**
" ++ checks_text ++ lit "

## Setup
1. Open `index.html` in a browser.
2. No build steps required.

## Notes
" ++ FALLBACK_NOTE ++ lit "
".

Definition fallback_html (brief : pystr) : pystr :=
  lit "
<html>
  <head><title>Fallback App</title></head>
  <body>
    <h1>Hello (fallback)</h1>
    <p>This app was generated as a fallback because the LLM failed to produce valid HTML. Brief: " ++ brief ++ lit "</p>
  </body>
</html>
".

(** ** The prompt *)

Definition REVISION_HEADING : pystr := lit "### Previous README.md:".

(** Lines 125 to 127. *)
Definition context_note (round_num : Z) (prev_readme : option pystr) : pystr :=
  match prev_readme with
  | Some prev =>
      if Z.eqb round_num 2 && Str.nonempty prev then
        [NL] ++ REVISION_HEADING ++ [NL] ++ prev ++ lit "

Revise and enhance this project according to the new brief below. The code must be modified to satisfy the new requirements.
"
      else []
  | None => []
  end.

(** [str] of a list of strings. *)
Definition repr_list (E : Env) (l : list pystr) : pystr :=
  lit "[" ++ Str.join (lit ", ") (map (repr_str E) l) ++ lit "]".

(** Lines 129 to 155. *)
Definition user_prompt (E : Env) (brief attachments_meta : pystr)
  (checks : option (list pystr)) (round_num : Z) (prev_readme : option pystr)
  : pystr :=
  lit "
You are a professional web developer assistant. You must output a single-file HTML application.

### Round
" ++ Str.of_Z round_num ++ lit "

### Task
" ++ brief ++ lit "

" ++ context_note round_num prev_readme ++ lit "

### Attachments (if any)
The attached files are available in the repository root. Reference them directly by name (e.g., 'sample.png').
" ++ attachments_meta ++ lit "

### Evaluation checks (Ensure the generated app can pass these checks)
" ++ repr_list E (checks_or_empty checks) ++ lit "

### Output format rules:
1. Produce a complete, runnable, single-file HTML web app satisfying the brief.
2. Output must contain **two parts only**:
    - The complete content of the `index.html` file (must be valid HTML).
    - The complete content of the `README.md` file, which starts after a line containing exactly: `---README.md---`
3. If using code blocks, ensure only the required content is inside the block.
4. README.md must include: Overview, Setup, Usage, and (if Round 2) describe improvements made.
5. Do not include any commentary or extra text outside the `index.html` and `---README.md---` sections.
".

(** ** The remote call *)

(** Line 176. *)
Definition extract_text (parsed : json) : result json :=
  candidates <- Py.get parsed (lit "candidates") (JArr [JObj []]) ;;
  candidate <- Py.index0 candidates ;;
  content <- Py.get candidate (lit "content") (JObj []) ;;
  parts <- Py.get content (lit "parts") (JArr [JObj []]) ;;
  part <- Py.index0 parts ;;
  Py.get part (lit "text") (JStr []).

(** Line 180. *)
Definition finish_reason (parsed : json) : result json :=
  candidates <- Py.get parsed (lit "candidates") (JArr [JObj []]) ;;
  candidate <- Py.index0 candidates ;;
  Py.get candidate (lit "finishReason") (JStr (lit "UNKNOWN")).

(** The [try] block of lines 158 to 183: the value of [text] when the block
    is left, and how it is left. [text] is assigned at line 176, before the
    test of line 178. *)
Definition call_llm (o : http_outcome) : json * result unit :=
  match o with
  | NetworkError => (JStr [], Raise RequestException)
  | Timeout => (JStr [], Raise RequestException)
  | BadStatus code body =>
      if raises_for_status code then (JStr [], Raise HTTPError)
      else
        match body with
        | None => (JStr [], Raise JSONDecodeError)
        | Some parsed =>
            match extract_text parsed with
            | Raise e => (JStr [], Raise e)
            | Ok text =>
                if negb (Py.truthy text) then
                  (text, _ <- finish_reason parsed ;; Raise EmptyGeneration)
                else (text, Ok tt)
            end
        end
  | BodyNotJson => (JStr [], Raise JSONDecodeError)
  | Body parsed =>
      match extract_text parsed with
      | Raise e => (JStr [], Raise e)
      | Ok text =>
          if negb (Py.truthy text) then
            (text, _ <- finish_reason parsed ;; Raise EmptyGeneration)
          else (text, Ok tt)
      end
  end.

(** Both handlers (lines 185 to 188) only print: [text] is what it was when
    the [try] block was left. *)
Definition text_after_call (o : http_outcome) : json := fst (call_llm o).

(** ** Parsing and the final result *)

Record Files := {
  index_html : pystr;
  readme_md : pystr
}.

Record GenerationResult := {
  files : Files;
  attachments : list DecodedAttachment
}.

(** [_strip_code_block(text)] when [text] need not be a string: a list or a
    dict passes the [in] test and fails at [split] or [strip]. *)
Definition strip_code_block_any (text : json) : result pystr :=
  match text with
  | JStr s => Ok (_strip_code_block s)
  | _ => _ <- Py.contains FENCE text ;; Raise AttributeError
  end.

(** Lines 190 to 197. *)
Definition split_response (text : json) (fallback_readme : pystr)
  : result (pystr * pystr) :=
  has_separator <- Py.contains SEPARATOR text ;;
  if has_separator : bool then
    match text with
    | JStr s =>
        match Str.split1 SEPARATOR s with
        | [code_part; readme_part] =>
            Ok (_strip_code_block code_part, _strip_code_block readme_part)
        | _ => Raise ValueError
        end
    | _ => Raise AttributeError
    end
  else
    code_part <- strip_code_block_any text ;;
    Ok (code_part, fallback_readme).

(** Lines 199 to 209. *)
Definition validate_code (brief code_part : pystr) : pystr :=
  if negb (Str.startswith (lit "<") (Str.strip code_part))
  then fallback_html brief
  else code_part.

(** [attachments or []] *)
Definition attachments_or_empty (atts : option (list Attachment))
  : list Attachment :=
  match atts with
  | Some l => l
  | None => []
  end.

(** Lines 122 and 123: the file system after the attachments are written,
    the entries saved and their summary. *)
Definition build_context (E : Env) (fs : filesystem)
  (atts : option (list Attachment))
  : filesystem * list DecodedAttachment * pystr :=
  let '(fs', saved) := decode_attachments E fs (attachments_or_empty atts) in
  (fs', saved, summarize_attachment_meta E fs' saved).

Definition generate_app_code (E : Env) (fs : filesystem) (brief : pystr)
  (atts : option (list Attachment)) (checks : option (list pystr))
  (round_num : Z) (prev_readme : option pystr)
  : filesystem * result GenerationResult :=
  let '(fs', saved, attachments_meta) := build_context E fs atts in
  let prompt := user_prompt E brief attachments_meta checks round_num prev_readme in
  let text := text_after_call (post E prompt) in
  (fs',
   parts <- split_response text
              (generate_readme_fallback brief checks attachments_meta round_num) ;;
   let '(code_part, readme_part) := parts in
   Ok {| files := {| index_html := validate_code brief code_part;
                     readme_md := readme_part |};
         attachments := saved |}).

(** ** Observations on a call *)

(** The summary text that a call puts in its prompt. *)
Definition summary_of_call (E : Env) (fs : filesystem)
  (atts : option (list Attachment)) : pystr :=
  snd (build_context E fs atts).

(** The prompt that a call sends. *)
Definition prompt_of_call (E : Env) (fs : filesystem) (brief : pystr)
  (atts : option (list Attachment)) (checks : option (list pystr))
  (round_num : Z) (prev_readme : option pystr) : pystr :=
  user_prompt E brief (summary_of_call E fs atts) checks round_num prev_readme.

(** How the endpoint answers that prompt. *)
Definition outcome_of_call (E : Env) (fs : filesystem) (brief : pystr)
  (atts : option (list Attachment)) (checks : option (list pystr))
  (round_num : Z) (prev_readme : option pystr) : http_outcome :=
  post E (prompt_of_call E fs brief atts checks round_num prev_readme).

(** The raw LLM text: the variable [text] at line 190. *)
Definition raw_text_of_call (E : Env) (fs : filesystem) (brief : pystr)
  (atts : option (list Attachment)) (checks : option (list pystr))
  (round_num : Z) (prev_readme : option pystr) : json :=
  text_after_call (outcome_of_call E fs brief atts checks round_num prev_readme).

(** Failures of the call at transport level: network error, timeout, or a
    status that is not 2xx. *)
Definition transport_failure (o : http_outcome) : bool :=
  match o with
  | NetworkError | Timeout => true
  | BadStatus code _ => negb (is_2xx code)
  | BodyNotJson | Body _ => false
  end.

(** The requests on which [requests.post] or [raise_for_status] raises:
    network error, timeout, or a status from 400 to 599. *)
Definition request_raises (o : http_outcome) : bool :=
  match o with
  | NetworkError | Timeout => true
  | BadStatus code _ => raises_for_status code
  | BodyNotJson | Body _ => false
  end.

(** [needle] occurs in [hay]. *)
Definition substring (needle hay : pystr) : Prop :=
  exists before after, hay = before ++ needle ++ after.

(** ** A reference environment for concrete runs *)

Module Ref.

(** The value of a character of the base64 alphabet. *)
Definition b64_value (c : char) : option N :=
  if ((65 <=? c) && (c <=? 90))%N then Some (c - 65)%N
  else if ((97 <=? c) && (c <=? 122))%N then Some (c - 71)%N
  else if ((48 <=? c) && (c <=? 57))%N then Some (c + 4)%N
  else if (c =? 43)%N then Some 62%N
  else if (c =? 47)%N then Some 63%N
  else None.

(** The loop of CPython's [binascii.a2b_base64] without [strict_mode]:
    characters outside the alphabet are skipped, and padding that
    completes a quad ends the data. *)
Fixpoint b64_loop (s : pystr) (quad_pos : nat) (leftchar : N) (pads : nat)
  (out : bytes) : option bytes :=
  match s with
  | [] => if Nat.eqb quad_pos 0 then Some (rev out) else None
  | c :: s' =>
      if (c =? 61)%N then
        if (2 <=? quad_pos) && (4 <=? quad_pos + S pads)
        then Some (rev out)
        else b64_loop s' quad_pos leftchar
               (if 2 <=? quad_pos then S pads else pads) out
      else
        match b64_value c with
        | None => b64_loop s' quad_pos leftchar pads out
        | Some v =>
            match quad_pos with
            | 0 => b64_loop s' 1 v 0 out
            | 1 => b64_loop s' 2 (N.land v 15) 0
                     ((leftchar * 4 + v / 16)%N :: out)
            | 2 => b64_loop s' 3 (N.land v 3) 0
                     ((leftchar * 16 + v / 4)%N :: out)
            | _ => b64_loop s' 0 0%N 0 ((leftchar * 64 + v)%N :: out)
            end
        end
  end.

(** [base64.b64decode] of a [str]: text outside ASCII is refused. *)
Definition b64 (s : pystr) : option bytes :=
  if forallb (fun c => (c <? 128)%N) s then b64_loop s 0 0%N 0 [] else None.

(** The translation of line ends in text mode: a carriage return, with
    the newline that follows it if there is one, is read as one newline. *)
Fixpoint universal_newlines (s : pystr) : pystr :=
  match s with
  | [] => []
  | c :: s' =>
      if (c =? 13)%N then
        match s' with
        | d :: s'' =>
            if (d =? 10)%N then NL :: universal_newlines s''
            else NL :: universal_newlines s'
        | [] => [NL]
        end
      else c :: universal_newlines s'
  end.

(** Decoding of a file whose bytes are all ASCII, which utf-8 reads as
    they stand; the bytes that are not are left out. *)
Definition ascii_text (b : bytes) : pystr :=
  universal_newlines (filter (fun c => (c <? 128)%N) b).

(** [repr] of a string of printable ASCII with no quote or backslash. *)
Definition quote (s : pystr) : pystr := lit "'" ++ s ++ lit "'".

(** An environment in which every write goes through and the endpoint
    gives the same answer to every prompt. *)
Definition env (answer : http_outcome) : Env :=
  {| b64decode := b64;
     open_wb_ok := fun _ => true;
     failed_write_leaves := fun _ _ => None;
     decode_text := ascii_text;
     repr_str := quote;
     post := fun _ => answer |}.

(** The same with every write refused. *)
Definition env_read_only (answer : http_outcome) : Env :=
  {| b64decode := b64;
     open_wb_ok := fun _ => false;
     failed_write_leaves := fun _ _ => None;
     decode_text := ascii_text;
     repr_str := quote;
     post := fun _ => answer |}.

(** The canonical name of an absolute path when no link is in the way:
    empty and [.] segments are dropped and [..] steps back one segment. *)
Fixpoint normal_segments (segments done : list pystr) : list pystr :=
  match segments with
  | [] => rev done
  | seg :: rest =>
      if negb (Str.nonempty seg) || Str.eqb seg (lit ".")
      then normal_segments rest done
      else if Str.eqb seg (lit "..") then normal_segments rest (tl done)
      else normal_segments rest (seg :: done)
  end.

Definition normpath (p : pystr) : pystr :=
  lit "/" ++ Str.join (lit "/") (normal_segments (Str.split (lit "/") p) []).

(** A file system with no file in it. *)
Definition no_files : filesystem :=
  {| resolve := normpath;
     store := fun file =>
       Unreadable (lit "[Errno 2] No such file or directory: "
                   ++ quote file) |}.

(** The parsed body of an answer whose generated text is [text]. *)
Definition body (text : json) : json :=
  JObj [(lit "candidates",
    JArr [JObj [(lit "content",
      JObj [(lit "parts", JArr [JObj [(lit "text", text)]])])]])].

(** An accepted answer whose generated text is [text]. *)
Definition answer (text : json) : http_outcome := Body (body text).

End Ref.

(** ** Sample inputs *)

Module Sample.

Definition brief : pystr := lit "Make a todo app".

(** A raw answer with both parts in code fences. *)
Definition fenced_answer : pystr := lit "```html
<p>hi</p>
```---README.md---```
# Notes
```".

(** A raw answer with nothing after the separator. *)
Definition answer_without_readme : pystr := lit "<p>hi</p>---README.md---".

(** A raw answer with no separator. *)
Definition answer_without_separator : pystr := lit "<p>hi</p>".

(** An accepted answer whose text field is [null]. *)
Definition null_text_answer : http_outcome := Ref.answer JNull.

(** A CSV file of two lines, [a,b] and [1,2]. *)
Definition csv_bytes : bytes :=
  [97; 44; 98; 10; 49; 44; 50; 10]%N.

Definition csv_attachment : Attachment :=
  {| att_name := Some (lit "data.csv");
     att_url := Some (lit "data:text/csv;base64,YSxiCjEsMgo=") |}.

Definition csv_entry : DecodedAttachment :=
  {| da_name := lit "data.csv";
     da_path := lit "/tmp/llm_attachments/data.csv";
     da_mime := lit "text/csv";
     da_size := 8 |}.

(** An attachment with no name; the payload is the text [hello]. *)
Definition unnamed_attachment : Attachment :=
  {| att_name := None;
     att_url := Some (lit "data:text/plain;base64,aGVsbG8=") |}.

Definition hello_bytes : bytes := [104; 101; 108; 108; 111]%N.

(** An attachment that refers to a remote file. *)
Definition remote_attachment : Attachment :=
  {| att_name := Some (lit "logo.png");
     att_url := Some (lit "https://example.com/logo.png") |}.

(** A file system that holds the CSV file. *)
Definition fs_with_csv : filesystem :=
  fs_write Ref.no_files (lit "/tmp/llm_attachments/data.csv") csv_bytes.

End Sample.

Module Cases.

(** A second attachment named data.csv; its payload is the line [x,y]. *)
Definition other_csv_attachment : Attachment :=
  {| att_name := Some (lit "data.csv");
     att_url := Some (lit "data:text/csv;base64,eCx5Cg==") |}.

Definition other_csv_bytes : bytes := [120; 44; 121; 10]%N.

(** A text attachment with a charset parameter. *)
Definition notes_attachment : Attachment :=
  {| att_name := Some (lit "notes.txt");
     att_url := Some (lit "data:text/plain;charset=utf-8;base64,aGVsbG8=") |}.

Definition notes_entry : DecodedAttachment :=
  {| da_name := lit "notes.txt";
     da_path := lit "/tmp/llm_attachments/notes.txt";
     da_mime := lit "text/plain";
     da_size := 5 |}.

(** A file system that holds the notes file, two lines of text. *)
Definition fs_with_notes : filesystem :=
  fs_write Ref.no_files (lit "/tmp/llm_attachments/notes.txt")
    [104; 105; 10; 121; 111; 117]%N.

(** An answer with prose around a fenced block that has a language tag. *)
Definition chatty_answer : pystr := lit "Here is the app:
```html
<p>hi</p>
```
Enjoy!".

(** An answer with two separators. *)
Definition two_separator_answer : pystr :=
  lit "<p>hi</p>---README.md---# Notes---README.md---more".

(** An answer that is not markup, with a README after the separator. *)
Definition prose_answer : pystr :=
  lit "Sorry, I cannot do that.---README.md---# Notes".

(** A parsed body with no candidates key. *)
Definition body_without_candidates : json :=
  JObj [(lit "error", JStr (lit "quota exceeded"))].

End Cases.

(** * Properties *)

(** ** Strings *)

Section StringFacts.

Lemma eqb_spec (a b : pystr) : Str.eqb a b = true <-> a = b.
Proof.
  revert b; induction a as [|c a IH]; intros [|d b]; simpl;
    try (split; [discriminate | congruence]); try tauto.
  rewrite andb_true_iff, N.eqb_eq, IH.
  split; [intros [-> ->]; reflexivity | intros H; inversion H; auto].
Qed.

Lemma eqb_refl (a : pystr) : Str.eqb a a = true.
Proof. apply eqb_spec; reflexivity. Qed.

Lemma startswith_spec (p s : pystr) :
  Str.startswith p s = true <-> exists t, s = p ++ t.
Proof.
  revert s; induction p as [|c p IH]; intros s; simpl.
  - split; [intros _; exists s; reflexivity | reflexivity].
  - destruct s as [|d s].
    + split; [discriminate | intros [t H]; discriminate].
    + rewrite andb_true_iff, N.eqb_eq, IH.
      split.
      * intros [-> [t ->]]. exists t; reflexivity.
      * intros [t H]. inversion H; subst. split; [reflexivity | eauto].
Qed.

Lemma startswith_app (p t : pystr) : Str.startswith p (p ++ t) = true.
Proof. apply startswith_spec; eauto. Qed.

Lemma contains_spec (needle hay : pystr) :
  Str.contains needle hay = true <-> substring needle hay.
Proof.
  unfold substring.
  induction hay as [|c hay IH]; simpl.
  - rewrite orb_false_r, startswith_spec. split.
    + intros [t H]. exists [], t. exact H.
    + intros [[|x b] [a H]]; [exists a; exact H | discriminate].
  - rewrite orb_true_iff, startswith_spec, IH. split.
    + intros [[t H] | [b [a H]]].
      * exists [], t. exact H.
      * exists (c :: b), a. rewrite H. reflexivity.
    + intros [[|x b] [a H]].
      * left. exists a. exact H.
      * right. inversion H; subst. exists b, a. reflexivity.
Qed.

Lemma contains_middle (before needle after : pystr) :
  Str.contains needle (before ++ needle ++ after) = true.
Proof. apply contains_spec. exists before, after. reflexivity. Qed.

Lemma substring_app_l (needle a b : pystr) :
  substring needle a -> substring needle (a ++ b).
Proof.
  intros [x [y ->]]. exists x, (y ++ b). now rewrite <- !app_assoc.
Qed.

Lemma substring_app_r (needle a b : pystr) :
  substring needle b -> substring needle (a ++ b).
Proof.
  intros [x [y ->]]. exists (a ++ x), y. now rewrite <- !app_assoc.
Qed.

Lemma substring_refl (s : pystr) : substring s s.
Proof. exists [], []. now rewrite app_nil_r. Qed.

Lemma substring_head (needle after : pystr) : substring needle (needle ++ after).
Proof. exists [], after. reflexivity. Qed.

(** Trimming keeps a first character that is not white space. *)
Lemma lstrip_snoc (l : pystr) (c : char) :
  Str.isspace c = false -> exists l', Str.lstrip (l ++ [c]) = l' ++ [c].
Proof.
  intros Hc. induction l as [|d l [l' IH]]; simpl.
  - rewrite Hc. exists []. reflexivity.
  - destruct (Str.isspace d).
    + exists l'. exact IH.
    + exists (d :: l). reflexivity.
Qed.

Lemma strip_cons_nonspace (c : char) (s : pystr) :
  Str.isspace c = false -> exists t, Str.strip (c :: s) = c :: t.
Proof.
  intros Hc. unfold Str.strip, Str.rstrip. simpl Str.lstrip. rewrite Hc.
  simpl rev.
  destruct (rev s) as [|d r] eqn:Hr.
  - simpl. rewrite Hc. exists []. reflexivity.
  - change ((d :: r) ++ [c]) with (d :: (r ++ [c])).
    destruct (lstrip_snoc (d :: r) c Hc) as [l' Hl].
    change ((d :: r) ++ [c]) with (d :: (r ++ [c])) in Hl.
    rewrite Hl, rev_app_distr. simpl. eauto.
Qed.

Lemma strip_nil : Str.strip [] = [].
Proof. reflexivity. Qed.

(** [split(sep, 1)] gives two parts exactly when [sep] occurs. *)
Lemma split1_found (sep s : pystr) :
  sep <> [] -> Str.contains sep s = true ->
  exists a b, Str.split1 sep s = [a; b].
Proof.
  intros Hsep. induction s as [|c s IH]; simpl.
  - destruct sep; [congruence | discriminate].
  - destruct (Str.startswith sep (c :: s)) eqn:Hs.
    + intros _. eauto.
    + simpl. intros H. destruct (IH H) as [a [b ->]]. simpl. eauto.
Qed.

Lemma split1_missing (sep s : pystr) :
  Str.contains sep s = false -> Str.split1 sep s = [s].
Proof.
  induction s as [|c s IH]; simpl.
  - reflexivity.
  - destruct (Str.startswith sep (c :: s)); [discriminate |].
    simpl. intros H. rewrite (IH H). reflexivity.
Qed.

(** The first occurrence of a one-character separator. *)
Lemma split1_at_first (c : char) (h p : pystr) :
  ~ In c h -> Str.split1 [c] (h ++ c :: p) = [h; p].
Proof.
  induction h as [|d h IH]; simpl; intros Hn.
  - rewrite N.eqb_refl. reflexivity.
  - destruct (N.eqb_spec c d) as [->|Hcd]; [tauto |].
    simpl. rewrite IH by tauto. reflexivity.
Qed.

End StringFacts.

Create HintDb substr.
#[local] Hint Resolve substring_refl substring_head substring_app_r : substr.

(** ** The string operations on small inputs *)

Example split_example :
  Str.split (lit "XX") (lit "aXXXb") = [lit "a"; lit "Xb"].
Proof. reflexivity. Qed.

Example split1_example :
  Str.split1 (lit ",") (lit "a,b,c") = [lit "a"; lit "b,c"]
  /\ Str.split1 (lit ",") (lit "abc") = [lit "abc"].
Proof. split; reflexivity. Qed.

Example replace_example :
  Str.replace (lit "data:") [] (lit "data:text/data:x") = lit "text/x".
Proof. reflexivity. Qed.

Example of_Z_example :
  Str.of_Z 0 = lit "0" /\ Str.of_Z 12 = lit "12" /\ Str.of_Z (-5) = lit "-5".
Proof. repeat split; reflexivity. Qed.

Example strip_example :
  Str.strip (lit "  <p>hi</p>
 ") = lit "<p>hi</p>".
Proof. reflexivity. Qed.

Example tmp_join_examples :
  Path.tmp_join (lit "attachment") = lit "/tmp/llm_attachments/attachment"
  /\ Path.tmp_join (lit "/etc/x") = lit "/etc/x"
  /\ Path.tmp_join (lit "a//b/./c/") = lit "/tmp/llm_attachments/a/b/c"
  /\ Path.tmp_join (lit ".") = lit "/tmp/llm_attachments".
Proof. repeat split; reflexivity. Qed.

Example b64_examples :
  Ref.b64 (lit "aGVsbG8=") = Some Sample.hello_bytes
  /\ Ref.b64 (lit "YSxiCjEsMgo=") = Some Sample.csv_bytes
  /\ Ref.b64 (lit "abc") = None.
Proof. repeat split; reflexivity. Qed.

Example strip_code_block_examples :
  _strip_code_block (lit "```html
<p>hi</p>
```") = lit "<p>hi</p>"
  /\ _strip_code_block (lit "  plain text ") = lit "plain text"
  /\ _strip_code_block (lit "``````") = lit "``````".
Proof. repeat split; reflexivity. Qed.

(** ** The fallback documents and the validation step *)

Lemma fallback_html_trimmed (brief : pystr) :
  Str.startswith (lit "<") (Str.strip (fallback_html brief)) = true.
Proof.
  assert (H : exists t, fallback_html brief = NL :: 60%N :: t)
    by (eexists; reflexivity).
  destruct H as [t Ht]. rewrite Ht.
  destruct (strip_cons_nonspace 60%N t eq_refl) as [u Hu].
  assert (G : Str.strip (NL :: 60%N :: t) = 60%N :: u) by exact Hu.
  rewrite G. reflexivity.
Qed.

Lemma fallback_html_embeds_brief (brief : pystr) :
  substring brief (fallback_html brief).
Proof. unfold fallback_html. auto with substr. Qed.

Lemma fallback_readme_has_note (brief : pystr) (checks : option (list pystr))
  (meta : pystr) (round_num : Z) :
  substring FALLBACK_NOTE (generate_readme_fallback brief checks meta round_num).
Proof.
  unfold generate_readme_fallback. auto 12 with substr.
Qed.

Lemma fallback_readme_nonempty (brief : pystr) (checks : option (list pystr))
  (meta : pystr) (round_num : Z) :
  generate_readme_fallback brief checks meta round_num <> [].
Proof. unfold generate_readme_fallback. discriminate. Qed.

Lemma validate_code_trimmed (brief code_part : pystr) :
  Str.startswith (lit "<") (Str.strip (validate_code brief code_part)) = true.
Proof.
  unfold validate_code.
  destruct (Str.startswith (lit "<") (Str.strip code_part)) eqn:H; cbn [negb].
  - exact H.
  - apply fallback_html_trimmed.
Qed.

Lemma validate_code_nonempty (brief code_part : pystr) :
  validate_code brief code_part <> [].
Proof.
  intros H. pose proof (validate_code_trimmed brief code_part) as T.
  rewrite H in T. discriminate T.
Qed.

(** ** The shape of a call *)

Lemma generate_app_code_unfold (E : Env) (fs : filesystem) (brief : pystr)
  (atts : option (list Attachment)) (checks : option (list pystr))
  (round_num : Z) (prev_readme : option pystr) :
  snd (generate_app_code E fs brief atts checks round_num prev_readme) =
  (parts <- split_response
              (raw_text_of_call E fs brief atts checks round_num prev_readme)
              (generate_readme_fallback brief checks
                 (summary_of_call E fs atts) round_num) ;;
   Ok {| files := {| index_html := validate_code brief (fst parts);
                     readme_md := snd parts |};
         attachments := snd (fst (build_context E fs atts)) |}).
Proof.
  unfold generate_app_code, raw_text_of_call, outcome_of_call, prompt_of_call,
    summary_of_call.
  destruct (build_context E fs atts) as [[fs' saved] meta]. cbn [fst snd].
  destruct (split_response _ _) as [[c r]|e]; reflexivity.
Qed.

Lemma separator_nonempty : SEPARATOR <> [].
Proof. discriminate. Qed.

(** On a string, the extraction step always returns. *)
Lemma split_response_str (s fallback : pystr) :
  exists code_part readme_part,
    split_response (JStr s) fallback = Ok (code_part, readme_part)
    /\ (Str.contains SEPARATOR s = false -> readme_part = fallback).
Proof.
  unfold split_response. cbn [Py.contains bind].
  destruct (Str.contains SEPARATOR s) eqn:H.
  - destruct (split1_found SEPARATOR s separator_nonempty H) as [a [b ->]].
    eexists _, _. split; [reflexivity | discriminate].
  - eexists _, _. split; [reflexivity | reflexivity].
Qed.

(** The text left by a request that raises is the empty string. *)
Lemma text_after_failure (o : http_outcome) :
  request_raises o = true -> text_after_call o = JStr [].
Proof.
  destruct o as [| | code body | | parsed]; cbn [request_raises];
    try discriminate; try reflexivity.
  intros H. unfold text_after_call, call_llm. rewrite H. reflexivity.
Qed.

(** An answer whose status is not an error status is read like a 2xx
    answer, whatever the status. *)
Lemma other_status_is_parsed (code : N) (body : option json) :
  raises_for_status code = false ->
  call_llm (BadStatus code body)
  = match body with
    | Some parsed => call_llm (Body parsed)
    | None => call_llm BodyNotJson
    end.
Proof.
  intros H. unfold call_llm. rewrite H. destruct body; reflexivity.
Qed.

(** With a text that is not a string, the extraction step raises. *)
Lemma split_response_returns_only_on_str (text : json)
  (fallback code_part readme_part : pystr) :
  split_response text fallback = Ok (code_part, readme_part) ->
  exists s, text = JStr s
    /\ (Str.contains SEPARATOR s = false -> readme_part = fallback).
Proof.
  destruct text as [| b | z | q | s | l | kvs];
    try (unfold split_response; cbn [Py.contains bind]; discriminate).
  - intros H. exists s. split; [reflexivity |].
    intros Hs. unfold split_response in H. cbn [Py.contains bind] in H.
    rewrite Hs in H. cbn [strip_code_block_any bind] in H. congruence.
  - unfold split_response, strip_code_block_any. cbn [Py.contains bind].
    destruct (existsb (Py.is_str SEPARATOR) l); discriminate.
  - unfold split_response, strip_code_block_any. cbn [Py.contains bind].
    destruct (existsb _ kvs); discriminate.
Qed.

(** ** C1: the files of a result *)

(** C1, against the claim as stated: an answer that ends at the separator
    gives a result whose README.md is the empty string. *)
Lemma C1_readme_can_be_empty :
  snd (generate_app_code
         (Ref.env (Ref.answer (JStr Sample.answer_without_readme)))
         Ref.no_files Sample.brief None None 1 None)
  = Ok {| files := {| index_html := lit "<p>hi</p>"; readme_md := [] |};
          attachments := [] |}.
Proof. vm_compute. reflexivity. Qed.

(** C1, amended: in every result that generate_app_code returns, the
    index.html value is a non-empty string that begins with the character
    < once trimmed; the README.md value can be empty only when the raw LLM
    text is a string that contains the separator, so a README that comes
    from the fallback generator is never empty. *)
Theorem C1_result_files (E : Env) (fs : filesystem) (brief : pystr)
  (atts : option (list Attachment)) (checks : option (list pystr))
  (round_num : Z) (prev_readme : option pystr) (r : GenerationResult) :
  snd (generate_app_code E fs brief atts checks round_num prev_readme) = Ok r ->
  index_html (files r) <> []
  /\ Str.startswith (lit "<") (Str.strip (index_html (files r))) = true
  /\ (readme_md (files r) = [] ->
      exists s,
        raw_text_of_call E fs brief atts checks round_num prev_readme = JStr s
        /\ Str.contains SEPARATOR s = true).
Proof.
  rewrite generate_app_code_unfold.
  destruct (split_response _ _) as [[c rd]|e] eqn:Hs; cbn [bind fst snd];
    [| discriminate].
  intros H. injection H as <-. cbn [files index_html readme_md].
  split; [apply validate_code_nonempty |].
  split; [apply validate_code_trimmed |].
  intros Hrd.
  destruct (split_response_returns_only_on_str _ _ _ _ Hs) as [s [Ht Hfb]].
  exists s. split; [exact Ht |].
  destruct (Str.contains SEPARATOR s) eqn:Hc; [reflexivity |].
  exfalso. specialize (Hfb eq_refl).
  apply (fallback_readme_nonempty brief checks (summary_of_call E fs atts)
           round_num).
  congruence.
Qed.

Lemma C1_result_files_witness :
  let E := Ref.env (Ref.answer (JStr Sample.fenced_answer)) in
  let r := {| files := {| index_html := lit "<p>hi</p>";
                          readme_md := lit "# Notes" |};
              attachments := [] |} in
  snd (generate_app_code E Ref.no_files Sample.brief None None 1 None) = Ok r
  /\ index_html (files r) <> []
  /\ Str.startswith (lit "<") (Str.strip (index_html (files r))) = true.
Proof.
  intros E r.
  assert (H : snd (generate_app_code E Ref.no_files Sample.brief None None 1 None)
              = Ok r) by (vm_compute; reflexivity).
  split; [exact H |].
  destruct (C1_result_files E Ref.no_files Sample.brief None None 1 None r H)
    as [H1 [H2 _]].
  split; assumption.
Defined.

(** ** C2: what a call returns *)

(** A text that is not a string makes the call raise: the extraction step
    is outside the [try]. *)
Lemma generate_app_code_raises_on_other_text (E : Env) (fs : filesystem)
  (brief : pystr) (atts : option (list Attachment))
  (checks : option (list pystr)) (round_num : Z) (prev_readme : option pystr) :
  (forall s,
     raw_text_of_call E fs brief atts checks round_num prev_readme <> JStr s) ->
  exists e,
    snd (generate_app_code E fs brief atts checks round_num prev_readme)
    = Raise e.
Proof.
  intros Hno. rewrite generate_app_code_unfold.
  destruct (split_response _ _) as [[c rd]|e] eqn:Hs.
  - destruct (split_response_returns_only_on_str _ _ _ _ Hs) as [s [Ht _]].
    exfalso. exact (Hno s Ht).
  - exists e. reflexivity.
Qed.

(** C2, at the failing input: for an accepted answer whose text field is
    null, the try block binds text to None at line 176, takes the code's own
    empty-text path (the raise of line 181, caught by the handler that
    announces the fallback), and the membership test of line 190, outside
    the try, then raises TypeError out of generate_app_code, where the claim
    says that no exception reaches the caller. The sibling inputs, an empty
    text and an absent text key, do fall back. *)
Theorem C2_null_text_raises :
  call_llm Sample.null_text_answer = (JNull, Raise EmptyGeneration)
  /\ snd (generate_app_code (Ref.env Sample.null_text_answer) Ref.no_files
            Sample.brief None None 1 None)
     = Raise TypeError
  /\ snd (generate_app_code (Ref.env (Ref.answer (JStr []))) Ref.no_files
            Sample.brief None None 1 None)
     = Ok {| files :=
               {| index_html := fallback_html Sample.brief;
                  readme_md := generate_readme_fallback Sample.brief None [] 1 |};
             attachments := [] |}
  /\ snd (generate_app_code (Ref.env (Body (JObj []))) Ref.no_files
            Sample.brief None None 1 None)
     = Ok {| files :=
               {| index_html := fallback_html Sample.brief;
                  readme_md := generate_readme_fallback Sample.brief None [] 1 |};
             attachments := [] |}.
Proof. repeat split; vm_compute; reflexivity. Qed.

(** Whenever the raw LLM text is a string (which covers every request that
    raises, every body that is not JSON and every body from which no text
    field can be read, all of which leave the empty string), the call
    returns a result with the two files and the attachments that
    decode_attachments saved. *)
Lemma generate_app_code_returns_on_string_text (E : Env) (fs : filesystem)
  (brief : pystr) (atts : option (list Attachment))
  (checks : option (list pystr)) (round_num : Z) (prev_readme : option pystr) :
  (exists s,
     raw_text_of_call E fs brief atts checks round_num prev_readme = JStr s) ->
  exists r,
    snd (generate_app_code E fs brief atts checks round_num prev_readme) = Ok r
    /\ attachments r
       = snd (decode_attachments E fs (attachments_or_empty atts)).
Proof.
  intros [s Hs]. rewrite generate_app_code_unfold, Hs.
  destruct (split_response_str s
              (generate_readme_fallback brief checks
                 (summary_of_call E fs atts) round_num))
    as [c [rd [-> _]]].
  cbn [bind]. eexists. split; [reflexivity |].
  cbn [attachments]. unfold build_context.
  destruct (decode_attachments E fs (attachments_or_empty atts)); reflexivity.
Qed.

(** ** C3: transport failures *)

(** C3, against the claim as stated: an answer with status 304, which is
    not 2xx, passes raise_for_status; its body is parsed, and the result
    holds the markup and the README of the answer, with neither the brief
    nor the fallback note in them. *)
Lemma C3_status_304_is_parsed :
  transport_failure
    (outcome_of_call
       (Ref.env (BadStatus 304 (Some (Ref.body (JStr Sample.fenced_answer)))))
       Ref.no_files Sample.brief None None 1 None) = true
  /\ snd (generate_app_code
            (Ref.env (BadStatus 304 (Some (Ref.body (JStr Sample.fenced_answer)))))
            Ref.no_files Sample.brief None None 1 None)
     = Ok {| files := {| index_html := lit "<p>hi</p>";
                         readme_md := lit "# Notes" |};
             attachments := [] |}
  /\ Str.contains Sample.brief (lit "<p>hi</p>") = false
  /\ Str.contains FALLBACK_NOTE (lit "# Notes") = false.
Proof. repeat split; vm_compute; reflexivity. Qed.

(** C3, amended: when the remote call fails with a network error, a timeout
    or a status from 400 to 599 (the statuses on which raise_for_status
    raises), generate_app_code returns normally; index.html is the fixed
    fallback document, which contains the brief, and README.md is the
    fallback README, which contains the fixed note that it was generated as
    a fallback. *)
Theorem C3_failed_request_falls_back (E : Env) (fs : filesystem)
  (brief : pystr) (atts : option (list Attachment))
  (checks : option (list pystr)) (round_num : Z) (prev_readme : option pystr) :
  request_raises
    (outcome_of_call E fs brief atts checks round_num prev_readme) = true ->
  exists r,
    snd (generate_app_code E fs brief atts checks round_num prev_readme) = Ok r
    /\ index_html (files r) = fallback_html brief
    /\ substring brief (index_html (files r))
    /\ readme_md (files r)
       = generate_readme_fallback brief checks (summary_of_call E fs atts)
           round_num
    /\ substring FALLBACK_NOTE (readme_md (files r)).
Proof.
  intros Hf. rewrite generate_app_code_unfold.
  unfold raw_text_of_call. rewrite (text_after_failure _ Hf).
  change (split_response (JStr []) ?fb) with (Ok (@nil char, fb)).
  cbn [bind fst snd]. eexists. split; [reflexivity |].
  cbn [files index_html readme_md].
  change (validate_code brief []) with (fallback_html brief).
  split; [reflexivity |].
  split; [apply fallback_html_embeds_brief |].
  split; [reflexivity |].
  apply fallback_readme_has_note.
Qed.

Lemma C3_failed_request_falls_back_witness :
  let E := Ref.env (BadStatus 503 (Some (Ref.body (JStr Sample.fenced_answer)))) in
  request_raises
    (outcome_of_call E Ref.no_files Sample.brief None None 1 None) = true
  /\ exists r,
       snd (generate_app_code E Ref.no_files Sample.brief None None 1 None)
       = Ok r
       /\ substring Sample.brief (index_html (files r))
       /\ substring FALLBACK_NOTE (readme_md (files r)).
Proof.
  intros E.
  assert (H : request_raises
    (outcome_of_call E Ref.no_files Sample.brief None None 1 None) = true)
    by reflexivity.
  split; [exact H |].
  destruct (C3_failed_request_falls_back E Ref.no_files Sample.brief
              None None 1 None H) as [r [Hr [_ [Hb [_ Hn]]]]].
  exists r. repeat split; assumption.
Defined.

(** ** C6: the README when the separator is missing *)

(** C6: for every raw LLM text that does not contain the separator, the
    README.md value of the result is exactly the output of
    generate_readme_fallback for the same brief, checks, attachment summary
    and round number. *)
Theorem C6_readme_is_fallback_without_separator (E : Env) (fs : filesystem)
  (brief : pystr) (atts : option (list Attachment))
  (checks : option (list pystr)) (round_num : Z) (prev_readme : option pystr)
  (text : pystr) :
  raw_text_of_call E fs brief atts checks round_num prev_readme = JStr text ->
  Str.contains SEPARATOR text = false ->
  exists r,
    snd (generate_app_code E fs brief atts checks round_num prev_readme) = Ok r
    /\ readme_md (files r)
       = generate_readme_fallback brief checks (summary_of_call E fs atts)
           round_num.
Proof.
  intros Ht Hc. rewrite generate_app_code_unfold, Ht.
  destruct (split_response_str text
              (generate_readme_fallback brief checks
                 (summary_of_call E fs atts) round_num))
    as [c [rd [-> Hfb]]].
  cbn [bind fst snd]. eexists. split; [reflexivity |].
  cbn [files readme_md]. exact (Hfb Hc).
Qed.

Lemma C6_readme_is_fallback_without_separator_witness :
  let E := Ref.env (Ref.answer (JStr Sample.answer_without_separator)) in
  raw_text_of_call E Ref.no_files Sample.brief None (Some [lit "works"]) 1 None
    = JStr Sample.answer_without_separator
  /\ Str.contains SEPARATOR Sample.answer_without_separator = false
  /\ exists r,
       snd (generate_app_code E Ref.no_files Sample.brief None
              (Some [lit "works"]) 1 None) = Ok r
       /\ readme_md (files r)
          = generate_readme_fallback Sample.brief (Some [lit "works"]) [] 1.
Proof.
  intros E.
  assert (H1 : raw_text_of_call E Ref.no_files Sample.brief None
                 (Some [lit "works"]) 1 None
               = JStr Sample.answer_without_separator) by reflexivity.
  assert (H2 : Str.contains SEPARATOR Sample.answer_without_separator = false)
    by reflexivity.
  split; [exact H1 |]. split; [exact H2 |].
  exact (C6_readme_is_fallback_without_separator E Ref.no_files Sample.brief
           None (Some [lit "works"]) 1 None _ H1 H2).
Defined.

(** ** C7: the fenced answer *)

Example fenced_answer_files :
  snd (generate_app_code (Ref.env (Ref.answer (JStr Sample.fenced_answer)))
         Ref.no_files Sample.brief None None 1 None)
  = Ok {| files := {| index_html := lit "<p>hi</p>";
                      readme_md := lit "# Notes" |};
          attachments := [] |}.
Proof. vm_compute. reflexivity. Qed.

(** C7: for the raw text made of an html code fence around <p>hi</p>, the
    separator, and a code fence around # Notes, the extraction step (split
    on the first separator, then strip the code block of each part) yields
    the markup <p>hi</p> and the readme # Notes. *)
Theorem C7_fenced_answer_extraction (fallback : pystr) :
  split_response (JStr Sample.fenced_answer) fallback
  = Ok (lit "<p>hi</p>", lit "# Notes").
Proof. reflexivity. Qed.

(** ** Attachments: C4, C5 and C10 *)

Lemma fs_write_read (fs : filesystem) (p : pystr) (d : bytes) :
  fs_write fs p d p = Content d.
Proof.
  unfold fs_read, fs_write. cbn [resolve store]. rewrite eqb_refl.
  reflexivity.
Qed.

(** The loop goes through its input from left to right: the entries of a
    list are those of its first part followed by those of the rest. *)
Lemma decode_attachments_app (E : Env) (fs : filesystem)
  (l1 l2 : list Attachment) :
  decode_attachments E fs (l1 ++ l2) =
  (fst (decode_attachments E (fst (decode_attachments E fs l1)) l2),
   snd (decode_attachments E fs l1)
   ++ snd (decode_attachments E (fst (decode_attachments E fs l1)) l2)).
Proof.
  revert fs. induction l1 as [|a l1 IH]; intros fs.
  - cbn [app decode_attachments fst snd].
    destruct (decode_attachments E fs l2); reflexivity.
  - cbn [app decode_attachments].
    destruct (decode_one E fs a) as [fs1 s1].
    rewrite IH.
    destruct (decode_attachments E fs1 l1) as [fs2 s2]. cbn [fst snd].
    destruct (decode_attachments E fs2 l2) as [fs3 s3]. cbn [fst snd].
    rewrite app_assoc. reflexivity.
Qed.

Lemma decode_attachments_cons (E : Env) (fs : filesystem) (a : Attachment)
  (l : list Attachment) :
  decode_attachments E fs (a :: l) =
  (fst (decode_attachments E (fst (decode_one E fs a)) l),
   snd (decode_one E fs a)
   ++ snd (decode_attachments E (fst (decode_one E fs a)) l)).
Proof.
  cbn [decode_attachments].
  destruct (decode_one E fs a) as [fs1 s1]. cbn [fst snd].
  destruct (decode_attachments E fs1 l); reflexivity.
Qed.

Lemma split1_comma (header payload : pystr) :
  ~ In 44%N header ->
  Str.split1 (lit ",") (header ++ lit "," ++ payload) = [header; payload].
Proof. intros H. exact (split1_at_first 44%N header payload H). Qed.

(** One turn of the loop on a data URI that decodes and is written. *)
Lemma decode_one_saved (E : Env) (fs : filesystem) (att : Attachment)
  (header payload : pystr) (data : bytes) :
  url_or_empty att = header ++ lit "," ++ payload ->
  ~ In 44%N header ->
  Str.startswith (lit "data:") (url_or_empty att) = true ->
  b64decode E payload = Some data ->
  open_wb_ok E (Path.tmp_join (name_or_default att)) = true ->
  decode_one E fs att =
  (fs_write fs (Path.tmp_join (name_or_default att)) data,
   [{| da_name := name_or_default att;
       da_path := Path.tmp_join (name_or_default att);
       da_mime := mime_of_header header;
       da_size := List.length data |}]).
Proof.
  intros Hurl Hcomma Hprefix Hdec Hwrite.
  unfold decode_one, decode_try. rewrite Hprefix. cbn [negb].
  rewrite Hurl, (split1_comma header payload Hcomma).
  rewrite Hdec, Hwrite. reflexivity.
Qed.

(** The entries that the [try] drops: no comma, a payload that does not
    decode, a file that cannot be written. *)
Lemma decode_one_without_comma (E : Env) (fs : filesystem) (att : Attachment) :
  Str.contains (lit ",") (url_or_empty att) = false ->
  decode_one E fs att = (fs, []).
Proof.
  intros H. unfold decode_one, decode_try.
  rewrite (split1_missing _ _ H).
  destruct (negb (Str.startswith (lit "data:") (url_or_empty att)));
    reflexivity.
Qed.

Lemma decode_one_undecodable (E : Env) (fs : filesystem) (att : Attachment)
  (header payload : pystr) :
  url_or_empty att = header ++ lit "," ++ payload ->
  ~ In 44%N header ->
  b64decode E payload = None ->
  decode_one E fs att = (fs, []).
Proof.
  intros Hurl Hcomma Hdec. unfold decode_one, decode_try.
  rewrite Hurl, (split1_comma header payload Hcomma), Hdec.
  destruct (negb (Str.startswith (lit "data:") (header ++ lit "," ++ payload)));
    reflexivity.
Qed.

Lemma decode_one_unwritable (E : Env) (fs : filesystem) (att : Attachment) :
  open_wb_ok E (Path.tmp_join (name_or_default att)) = false ->
  snd (decode_one E fs att) = [].
Proof.
  intros Hw. unfold decode_one, decode_try.
  destruct (negb (Str.startswith (lit "data:") (url_or_empty att)));
    [reflexivity |].
  destruct (Str.split1 (lit ",") (url_or_empty att)) as [|h [|p [|x l]]];
    try reflexivity.
  destruct (b64decode E p); [rewrite Hw |]; reflexivity.
Qed.

(** Every turn of the loop appends at most one entry. *)
Lemma decode_one_at_most_one (E : Env) (fs : filesystem) (att : Attachment) :
  List.length (snd (decode_one E fs att)) <= 1.
Proof.
  unfold decode_one.
  destruct (negb (Str.startswith (lit "data:") (url_or_empty att)));
    [cbn; lia |].
  destruct (decode_try E fs (name_or_default att) (url_or_empty att))
    as [fs' [d|e]]; cbn; lia.
Qed.

(** C4: an attachment whose url is a data URI (it starts with data:, has a
    comma, and the text after the first comma decodes) and whose file write
    succeeds gives exactly one entry, placed between the entries of the
    attachments before it and those of the attachments after it; the size
    of the entry is the length of the decoded payload, and the file at its
    path holds exactly the decoded payload once it is written. *)
Theorem C4_valid_attachment_saved (E : Env) (fs : filesystem)
  (before after : list Attachment) (att : Attachment)
  (header payload : pystr) (data : bytes) :
  url_or_empty att = header ++ lit "," ++ payload ->
  ~ In 44%N header ->
  Str.startswith (lit "data:") (url_or_empty att) = true ->
  b64decode E payload = Some data ->
  open_wb_ok E (Path.tmp_join (name_or_default att)) = true ->
  let path := Path.tmp_join (name_or_default att) in
  let entry := {| da_name := name_or_default att; da_path := path;
                  da_mime := mime_of_header header;
                  da_size := List.length data |} in
  let fs1 := fst (decode_attachments E fs before) in
  let fs2 := fs_write fs1 path data in
  decode_attachments E fs (before ++ att :: after) =
    (fst (decode_attachments E fs2 after),
     snd (decode_attachments E fs before)
     ++ entry :: snd (decode_attachments E fs2 after))
  /\ fs2 (da_path entry) = Content data
  /\ da_size entry = List.length data.
Proof.
  intros Hurl Hcomma Hprefix Hdec Hwrite path entry fs1 fs2.
  split; [| split; [apply fs_write_read | reflexivity]].
  rewrite decode_attachments_app, decode_attachments_cons.
  fold fs1.
  rewrite (decode_one_saved E fs1 att header payload data
             Hurl Hcomma Hprefix Hdec Hwrite).
  reflexivity.
Qed.

Lemma C4_valid_attachment_saved_witness :
  let E := Ref.env Timeout in
  let att := Sample.csv_attachment in
  url_or_empty att = lit "data:text/csv;base64" ++ lit "," ++ lit "YSxiCjEsMgo="
  /\ ~ In 44%N (lit "data:text/csv;base64")
  /\ Str.startswith (lit "data:") (url_or_empty att) = true
  /\ b64decode E (lit "YSxiCjEsMgo=") = Some Sample.csv_bytes
  /\ open_wb_ok E (Path.tmp_join (name_or_default att)) = true
  /\ snd (decode_attachments E Ref.no_files
            ([Sample.remote_attachment] ++ att :: [Sample.unnamed_attachment]))
     = snd (decode_attachments E Ref.no_files [Sample.remote_attachment])
       ++ Sample.csv_entry
       :: snd (decode_attachments E
                 (fs_write Ref.no_files (lit "/tmp/llm_attachments/data.csv")
                    Sample.csv_bytes)
                 [Sample.unnamed_attachment]).
Proof.
  intros E att.
  assert (H1 : url_or_empty att
               = lit "data:text/csv;base64" ++ lit "," ++ lit "YSxiCjEsMgo=")
    by reflexivity.
  assert (H2 : ~ In 44%N (lit "data:text/csv;base64"))
    by (vm_compute; intuition discriminate).
  assert (H3 : Str.startswith (lit "data:") (url_or_empty att) = true)
    by reflexivity.
  assert (H4 : b64decode E (lit "YSxiCjEsMgo=") = Some Sample.csv_bytes)
    by reflexivity.
  assert (H5 : open_wb_ok E (Path.tmp_join (name_or_default att)) = true)
    by reflexivity.
  repeat (split; [assumption |]).
  destruct (C4_valid_attachment_saved E Ref.no_files
              [Sample.remote_attachment] [Sample.unnamed_attachment] att
              _ _ _ H1 H2 H3 H4 H5) as [H _].
  exact (f_equal snd H).
Defined.

(** C5: an attachment whose url does not start with data: gives no entry
    and changes no file; the call goes on with the attachments that follow,
    and returns what it returns without that attachment. The model of
    decode_attachments is a total function: no exception leaves it. *)
Theorem C5_non_data_url_skipped (E : Env) (fs : filesystem)
  (before after : list Attachment) (att : Attachment) :
  Str.startswith (lit "data:") (url_or_empty att) = false ->
  decode_one E fs att = (fs, [])
  /\ decode_attachments E fs (before ++ att :: after)
     = decode_attachments E fs (before ++ after).
Proof.
  intros H.
  assert (Hone : forall fs', decode_one E fs' att = (fs', []))
    by (intros fs'; unfold decode_one; rewrite H; reflexivity).
  split; [apply Hone |].
  rewrite !decode_attachments_app, decode_attachments_cons, Hone.
  reflexivity.
Qed.

Lemma C5_non_data_url_skipped_witness :
  let E := Ref.env Timeout in
  Str.startswith (lit "data:") (url_or_empty Sample.remote_attachment) = false
  /\ snd (decode_attachments E Ref.no_files
            ([Sample.csv_attachment] ++ Sample.remote_attachment
             :: [Sample.unnamed_attachment]))
     = snd (decode_attachments E Ref.no_files
              ([Sample.csv_attachment] ++ [Sample.unnamed_attachment])).
Proof.
  intros E.
  assert (H : Str.startswith (lit "data:")
                (url_or_empty Sample.remote_attachment) = false)
    by reflexivity.
  split; [exact H |].
  destruct (C5_non_data_url_skipped E Ref.no_files [Sample.csv_attachment]
              [Sample.unnamed_attachment] Sample.remote_attachment H)
    as [_ Heq].
  exact (f_equal snd Heq).
Defined.

Lemma default_name_used (att : Attachment) :
  att_name att = None \/ att_name att = Some [] ->
  name_or_default att = lit "attachment".
Proof. unfold name_or_default. intros [-> | ->]; reflexivity. Qed.

Lemma default_path :
  Path.tmp_join (lit "attachment") = lit "/tmp/llm_attachments/attachment".
Proof. reflexivity. Qed.

(** C10, against the claim as stated: where the file cannot be written, an
    unnamed attachment with a valid data URI gives no entry. *)
Lemma C10_unwritable_default_file_dropped :
  snd (decode_attachments (Ref.env_read_only Timeout) Ref.no_files
         [Sample.unnamed_attachment]) = []
  /\ att_name Sample.unnamed_attachment = None
  /\ Str.startswith (lit "data:") (url_or_empty Sample.unnamed_attachment) = true
  /\ Str.split1 (lit ",") (url_or_empty Sample.unnamed_attachment)
     = [lit "data:text/plain;base64"; lit "aGVsbG8="]
  /\ b64decode (Ref.env_read_only Timeout) (lit "aGVsbG8=")
     = Some Sample.hello_bytes.
Proof. repeat split; reflexivity. Qed.

(** C10, amended: for an attachment whose name is absent, None or the empty
    string and whose url is a valid data URI, decode_attachments uses the
    name attachment; when the write of the file
    /tmp/llm_attachments/attachment succeeds, it writes the decoded bytes
    there and produces exactly one entry, with that name and that path. *)
Theorem C10_default_name (E : Env) (fs : filesystem) (att : Attachment)
  (header payload : pystr) (data : bytes) :
  att_name att = None \/ att_name att = Some [] ->
  url_or_empty att = header ++ lit "," ++ payload ->
  ~ In 44%N header ->
  Str.startswith (lit "data:") (url_or_empty att) = true ->
  b64decode E payload = Some data ->
  open_wb_ok E (lit "/tmp/llm_attachments/attachment") = true ->
  decode_attachments E fs [att] =
    (fs_write fs (lit "/tmp/llm_attachments/attachment") data,
     [{| da_name := lit "attachment";
         da_path := lit "/tmp/llm_attachments/attachment";
         da_mime := mime_of_header header;
         da_size := List.length data |}])
  /\ fs_write fs (lit "/tmp/llm_attachments/attachment") data
       (lit "/tmp/llm_attachments/attachment") = Content data.
Proof.
  intros Hname Hurl Hcomma Hprefix Hdec Hwrite.
  split; [| apply fs_write_read].
  rewrite decode_attachments_cons.
  pose proof (default_name_used att Hname) as Hn.
  rewrite <- default_path, <- Hn in Hwrite.
  rewrite (decode_one_saved E fs att header payload data
             Hurl Hcomma Hprefix Hdec Hwrite).
  rewrite Hn, default_path. reflexivity.
Qed.

Lemma C10_default_name_witness :
  let E := Ref.env Timeout in
  let att := Sample.unnamed_attachment in
  (att_name att = None \/ att_name att = Some [])
  /\ url_or_empty att = lit "data:text/plain;base64" ++ lit "," ++ lit "aGVsbG8="
  /\ ~ In 44%N (lit "data:text/plain;base64")
  /\ Str.startswith (lit "data:") (url_or_empty att) = true
  /\ b64decode E (lit "aGVsbG8=") = Some Sample.hello_bytes
  /\ open_wb_ok E (lit "/tmp/llm_attachments/attachment") = true
  /\ snd (decode_attachments E Ref.no_files [att])
     = [{| da_name := lit "attachment";
           da_path := lit "/tmp/llm_attachments/attachment";
           da_mime := lit "text/plain";
           da_size := 5 |}].
Proof.
  intros E att.
  assert (H0 : att_name att = None \/ att_name att = Some [])
    by (left; reflexivity).
  assert (H1 : url_or_empty att
               = lit "data:text/plain;base64" ++ lit "," ++ lit "aGVsbG8=")
    by reflexivity.
  assert (H2 : ~ In 44%N (lit "data:text/plain;base64"))
    by (vm_compute; intuition discriminate).
  assert (H3 : Str.startswith (lit "data:") (url_or_empty att) = true)
    by reflexivity.
  assert (H4 : b64decode E (lit "aGVsbG8=") = Some Sample.hello_bytes)
    by reflexivity.
  assert (H5 : open_wb_ok E (lit "/tmp/llm_attachments/attachment") = true)
    by reflexivity.
  repeat (split; [assumption |]).
  destruct (C10_default_name E Ref.no_files att _ _ _ H0 H1 H2 H3 H4 H5)
    as [H _].
  exact (f_equal snd H).
Defined.

(** ** Summaries: C9 *)

(** Once the lines are counted the file is at its end, so no turn of the
    comprehension reads a line: a turn either raises [StopIteration] (the
    position is below 1000) or is filtered out. *)
Lemma csv_lines_at_end (k : nat) (lines : list pystr) (size : nat) :
  csv_lines k {| tf_lines := lines; tf_size := size;
                 tf_rest := []; tf_telling := true |}
  = match k with
    | O => inr []
    | S _ => if size <? 1000 then inl StopIteration else inr []
    end.
Proof.
  induction k as [|k IH]; [reflexivity |].
  cbn [csv_lines File.tell File.next tf_telling tf_rest tf_size].
  destruct (size <? 1000) eqn:Hs; [reflexivity |].
  rewrite IH. destruct k; reflexivity.
Qed.

Lemma count_rest_zero (rest : list pystr) :
  File.count_rest rest = 0 <-> rest = [].
Proof. destruct rest; simpl; split; intros H; try reflexivity; discriminate. Qed.

(** The CSV preview shows no line of the file, whatever the file holds. *)
Lemma csv_preview_never_reads_a_line (text : pystr) (size : nat) :
  csv_preview (File.open_text text size)
  = match Str.lines_keepends text with
    | [] => inr []
    | _ :: _ => if size <? 1000 then inl StopIteration else inr []
    end.
Proof.
  unfold csv_preview, File.open_text, File.seek0, File.count_lines.
  cbn [tf_lines tf_size tf_rest tf_telling].
  rewrite csv_lines_at_end.
  destruct (Str.lines_keepends text) as [|l rest]; [reflexivity |].
  cbn [File.count_rest Nat.add].
  change (Nat.min 3 (S (File.count_rest rest)))
    with (S (Nat.min 2 (File.count_rest rest))).
  destruct (size <? 1000); reflexivity.
Qed.

(** A read that fails gives the one-line notice with the text of the error,
    for every entry that is previewed as text. *)
Lemma summarize_one_unreadable (E : Env) (fs : filesystem)
  (s : DecodedAttachment) (err : pystr) :
  Str.startswith (lit "text") (da_mime s)
  || Str.endswith_any text_suffixes (da_name s) = true ->
  fs (da_path s) = Unreadable err ->
  summarize_one E fs s = failure_line (da_name s) (da_mime s) err.
Proof.
  intros Ht Hfs. unfold summarize_one, summary_try.
  rewrite Ht, Hfs. reflexivity.
Qed.

(** A CSV file that can be read is summarised without any of its lines:
    by the failure notice with an empty error text when the file is not
    empty and shorter than 1000 bytes, and by an empty preview otherwise. *)
Lemma summarize_one_csv (E : Env) (fs : filesystem) (s : DecodedAttachment)
  (b : bytes) :
  Str.endswith (lit ".csv") (da_name s) = true ->
  fs (da_path s) = Content b ->
  summarize_one E fs s
  = match Str.lines_keepends (decode_text E b) with
    | [] => preview_line (da_name s) (da_mime s) []
    | _ :: _ =>
        if List.length b <? 1000
        then failure_line (da_name s) (da_mime s) []
        else preview_line (da_name s) (da_mime s) []
    end.
Proof.
  intros Hcsv Hfs. unfold summarize_one, summary_try.
  assert (Hany : Str.endswith_any text_suffixes (da_name s) = true).
  { unfold Str.endswith_any, text_suffixes. cbn [existsb].
    rewrite Hcsv, !orb_true_r. reflexivity. }
  rewrite Hany, orb_true_r, Hfs, Hcsv, csv_preview_never_reads_a_line.
  destruct (Str.lines_keepends (decode_text E b)); [reflexivity |].
  destruct (List.length b <? 1000); reflexivity.
Qed.

(** C9, at the failing input: for the saved entry data.csv whose file holds
    the two lines a,b and 1,2, summarize_attachment_meta emits the notice
    that the preview could not be read, with an empty error text, and not a
    preview that contains those lines. *)
Theorem C9_csv_preview_of_small_file (answer : http_outcome) :
  summarize_attachment_meta (Ref.env answer) Sample.fs_with_csv
    [Sample.csv_entry]
  = lit "- data.csv (text/csv): (could not read preview: )".
Proof. reflexivity. Qed.

(** ** The prompt: C8 *)

(** A text with no newline in it cannot lie across a newline. *)
Lemma substring_across_newline (needle a b : pystr) :
  ~ In NL needle ->
  substring needle (a ++ NL :: b) ->
  substring needle a \/ substring needle b.
Proof.
  intros Hnl [x [y H]].
  destruct (app_eq_app _ _ _ _ H) as [l [[Ha Hy] | [Hx Hb]]].
  - (* a = x ++ l *)
    destruct (app_eq_app _ _ _ _ Hy) as [m [[Hn Hb] | [Hl Hy']]].
    + (* needle = l ++ m, NL :: b = m ++ y *)
      destruct m as [|c m].
      * left. exists x, []. rewrite app_nil_r in *. subst. reflexivity.
      * exfalso. apply Hnl. inversion Hb; subst.
        apply in_or_app. right. left. reflexivity.
    + left. exists x, m. subst. reflexivity.
  - (* x = a ++ l, NL :: b = l ++ needle ++ y *)
    destruct l as [|c l].
    + destruct needle as [|c n].
      * left. exists a, []. rewrite app_nil_r. reflexivity.
      * exfalso. apply Hnl. inversion Hb. left. reflexivity.
    + right. inversion Hb; subst. exists l, y. reflexivity.
Qed.

Lemma not_substring (needle hay : pystr) :
  Str.contains needle hay = false -> ~ substring needle hay.
Proof.
  intros H S. apply contains_spec in S. rewrite H in S. discriminate.
Qed.

(** Past a constant piece that ends with a newline. *)
Lemma past_constant (needle c rest : pystr) :
  ~ In NL needle ->
  Str.contains needle c = false ->
  c = removelast c ++ [NL] ->
  substring needle (c ++ rest) -> substring needle rest.
Proof.
  intros Hnl Hc Hend H. rewrite Hend, <- app_assoc in H.
  destruct (substring_across_newline _ _ _ Hnl H) as [Hl | Hr].
  - exfalso. apply (not_substring _ _ Hc).
    rewrite Hend. apply substring_app_l. exact Hl.
  - exact Hr.
Qed.

(** Past a variable piece that is followed by a newline. *)
Lemma past_variable (needle v rest rest' : pystr) :
  ~ In NL needle ->
  ~ substring needle v ->
  rest = NL :: rest' ->
  substring needle (v ++ rest) -> substring needle rest.
Proof.
  intros Hnl Hv Hrest H. rewrite Hrest in H.
  destruct (substring_across_newline _ _ _ Hnl H) as [Hl | Hr].
  - contradiction.
  - rewrite Hrest. apply (substring_app_r needle [NL] rest'). exact Hr.
Qed.

Lemma heading_has_no_newline : ~ In NL REVISION_HEADING.
Proof. vm_compute. intuition discriminate. Qed.

Lemma context_note_round1 (prev_readme : option pystr) :
  context_note 1 prev_readme = [].
Proof. destruct prev_readme; reflexivity. Qed.

Lemma context_note_round2 (prev : pystr) :
  prev <> [] ->
  exists tail, context_note 2 (Some prev)
               = [NL] ++ REVISION_HEADING ++ [NL] ++ prev ++ tail.
Proof.
  intros H. unfold context_note.
  destruct prev; [congruence |]. cbn [Z.eqb Pos.eqb Str.nonempty andb].
  eexists. reflexivity.
Qed.

(** Steps over the pieces of a prompt, from left to right. *)
Ltac past_literal H Hnl :=
  apply past_constant in H; [| exact Hnl | reflexivity | reflexivity].

Ltac past_field H Hnl Hfield :=
  eapply past_variable in H; [| exact Hnl | exact Hfield | reflexivity].

(** In round 1 the revision heading is in the prompt only if the caller's
    own text has it. *)
Lemma round1_prompt_without_heading (E : Env) (brief meta : pystr)
  (checks : option (list pystr)) (prev_readme : option pystr) :
  ~ substring REVISION_HEADING brief ->
  ~ substring REVISION_HEADING meta ->
  ~ substring REVISION_HEADING (repr_list E (checks_or_empty checks)) ->
  ~ substring REVISION_HEADING (user_prompt E brief meta checks 1 prev_readme).
Proof.
  intros Hb Hm Hc H. unfold user_prompt in H.
  rewrite context_note_round1 in H.
  pose proof heading_has_no_newline as Hnl.
  assert (Hr : ~ substring REVISION_HEADING (Str.of_Z 1))
    by (apply not_substring; reflexivity).
  past_literal H Hnl. past_field H Hnl Hr.
  past_literal H Hnl. past_field H Hnl Hb.
  past_literal H Hnl. rewrite app_nil_l in H.
  past_literal H Hnl. past_field H Hnl Hm.
  past_literal H Hnl. past_field H Hnl Hc.
  revert H. apply not_substring. reflexivity.
Qed.

Lemma prompt_has_brief (E : Env) (brief meta : pystr)
  (checks : option (list pystr)) (round_num : Z) (prev_readme : option pystr) :
  substring brief (user_prompt E brief meta checks round_num prev_readme).
Proof.
  unfold user_prompt. auto 6 with substr.
Qed.

Lemma round2_prompt_has_previous_readme (E : Env) (brief meta : pystr)
  (checks : option (list pystr)) (prev : pystr) :
  prev <> [] ->
  substring prev (user_prompt E brief meta checks 2 (Some prev)).
Proof.
  intros H. unfold user_prompt.
  do 5 apply substring_app_r. apply substring_app_l.
  destruct (context_note_round2 prev H) as [tail ->]. auto 6 with substr.
Qed.

(** C8: for every non-empty previous README, the prompt that a round-2 call
    builds contains both that README and the brief. In a round-1 call,
    whatever is supplied as previous README, the context note is empty and
    the prompt is the one built with no previous README; the heading of the
    revision directive is then in the prompt only if the brief, the
    attachment summary or the checks themselves contain it. *)
Theorem C8_prompt_by_round (E : Env) (fs : filesystem) (brief : pystr)
  (atts : option (list Attachment)) (checks : option (list pystr))
  (prev : pystr) :
  prev <> [] ->
  (substring prev (prompt_of_call E fs brief atts checks 2 (Some prev))
   /\ substring brief (prompt_of_call E fs brief atts checks 2 (Some prev)))
  /\ (forall supplied : option pystr,
        context_note 1 supplied = []
        /\ prompt_of_call E fs brief atts checks 1 supplied
           = prompt_of_call E fs brief atts checks 1 None
        /\ (~ substring REVISION_HEADING brief ->
            ~ substring REVISION_HEADING (summary_of_call E fs atts) ->
            ~ substring REVISION_HEADING (repr_list E (checks_or_empty checks)) ->
            ~ substring REVISION_HEADING
                (prompt_of_call E fs brief atts checks 1 supplied))).
Proof.
  intros Hprev. unfold prompt_of_call. split.
  - split.
    + apply round2_prompt_has_previous_readme. exact Hprev.
    + apply prompt_has_brief.
  - intros supplied. split; [apply context_note_round1 |]. split.
    + unfold user_prompt. rewrite !context_note_round1. reflexivity.
    + apply round1_prompt_without_heading.
Qed.

Lemma C8_prompt_by_round_witness :
  let E := Ref.env Timeout in
  let prev := lit "# Old notes" in
  prev <> []
  /\ Str.contains prev
       (prompt_of_call E Ref.no_files Sample.brief None None 2 (Some prev))
     = true
  /\ Str.contains Sample.brief
       (prompt_of_call E Ref.no_files Sample.brief None None 2 (Some prev))
     = true
  /\ prompt_of_call E Ref.no_files Sample.brief None None 1 (Some prev)
     = prompt_of_call E Ref.no_files Sample.brief None None 1 None.
Proof.
  intros E prev.
  assert (H : prev <> []) by discriminate.
  split; [exact H |].
  destruct (C8_prompt_by_round E Ref.no_files Sample.brief None None prev H)
    as [[H1 H2] H3].
  split; [apply contains_spec; exact H1 |].
  split; [apply contains_spec; exact H2 |].
  exact (proj1 (proj2 (H3 (Some prev)))).
Defined.

Example csv_attachment_summary (answer : http_outcome) :
  summary_of_call (Ref.env answer) Ref.no_files (Some [Sample.csv_attachment])
  = lit "- data.csv (text/csv): (could not read preview: )".
Proof. reflexivity. Qed.

(** * Further properties of the pipeline *)

(** ** More on strings *)

Section MoreStringFacts.

Lemma lstrip_shape (s : pystr) :
  Str.lstrip s = []
  \/ exists c r, Str.lstrip s = c :: r /\ Str.isspace c = false.
Proof.
  induction s as [|c s IH]; [left; reflexivity |].
  cbn [Str.lstrip]. destruct (Str.isspace c) eqn:Hc; [exact IH |].
  right. exists c, s. split; [reflexivity | exact Hc].
Qed.

Lemma lstrip_nonspace (c : char) (s : pystr) :
  Str.isspace c = false -> Str.lstrip (c :: s) = c :: s.
Proof. intros H. cbn [Str.lstrip]. rewrite H. reflexivity. Qed.

Lemma rstrip_cons_nonspace (c : char) (s : pystr) :
  Str.isspace c = false -> exists t, Str.rstrip (c :: s) = c :: t.
Proof.
  intros Hc. destruct (strip_cons_nonspace c s Hc) as [t Ht].
  exists t. unfold Str.strip in Ht. rewrite (lstrip_nonspace c s Hc) in Ht.
  exact Ht.
Qed.

Lemma rstrip_idem (s : pystr) : Str.rstrip (Str.rstrip s) = Str.rstrip s.
Proof.
  unfold Str.rstrip. rewrite rev_involutive.
  destruct (lstrip_shape (rev s)) as [-> | [c [r [-> Hc]]]]; [reflexivity |].
  rewrite (lstrip_nonspace c r Hc). reflexivity.
Qed.

(** Trimming twice is trimming once. *)
Lemma strip_idem (s : pystr) : Str.strip (Str.strip s) = Str.strip s.
Proof.
  unfold Str.strip.
  destruct (lstrip_shape s) as [-> | [c [r [-> Hc]]]]; [reflexivity |].
  destruct (rstrip_cons_nonspace c r Hc) as [t Ht]. rewrite Ht.
  rewrite (lstrip_nonspace c t Hc), <- Ht. apply rstrip_idem.
Qed.

(** The scan passes over the rest of a matched separator. *)
Lemma split_scan_skip (sep u rest : pystr) :
  Str.split_scan sep (List.length u) (u ++ rest) = Str.split_scan sep 0 rest.
Proof.
  induction u as [|c u IH]; [reflexivity |]. cbn [List.length app Str.split_scan].
  exact IH.
Qed.

Lemma split_at_separator (sep rest : pystr) :
  sep <> [] ->
  Str.split sep (sep ++ rest) = [] :: Str.split sep rest.
Proof.
  intros Hsep. destruct sep as [|f sep']; [congruence |].
  unfold Str.split. cbn [app Str.split_scan].
  change (f :: sep' ++ rest) with ((f :: sep') ++ rest).
  rewrite startswith_app. cbn [List.length Nat.sub].
  rewrite Nat.sub_0_r, split_scan_skip. reflexivity.
Qed.

Lemma split_absent (sep s : pystr) :
  Str.contains sep s = false -> Str.split sep s = [s].
Proof.
  unfold Str.split. induction s as [|c s IH]; [reflexivity |].
  cbn [Str.contains Str.split_scan]. intros H.
  apply orb_false_iff in H. destruct H as [H1 H2].
  rewrite H1, (IH H2). reflexivity.
Qed.

Lemma startswith_first_char (f c : char) (sep s : pystr) :
  c <> f -> Str.startswith (f :: sep) (c :: s) = false.
Proof.
  intros H. cbn [Str.startswith].
  destruct (N.eqb_spec f c) as [->|_]; [congruence | reflexivity].
Qed.

Lemma contains_first_char (f : char) (sep s : pystr) :
  ~ In f s -> Str.contains (f :: sep) s = false.
Proof.
  induction s as [|c s IH]; intros H; [reflexivity |].
  cbn [Str.contains]. rewrite startswith_first_char, IH; try reflexivity.
  - intros Hin. apply H. right. exact Hin.
  - intros ->. apply H. left. reflexivity.
Qed.

Lemma split_cons_no_match (sep s : pystr) (c : char) :
  Str.startswith sep (c :: s) = false ->
  Str.split sep (c :: s) = Str.cons_head c (Str.split sep s).
Proof.
  intros H. unfold Str.split. cbn [Str.split_scan]. rewrite H. reflexivity.
Qed.

(** A separator whose first character is not in [pre] is first met right
    after [pre]. *)
Lemma split_after_prefix (f : char) (sep pre rest : pystr) :
  ~ In f pre ->
  Str.split (f :: sep) (pre ++ (f :: sep) ++ rest)
  = pre :: Str.split (f :: sep) rest.
Proof.
  induction pre as [|c pre IH]; intros H.
  - rewrite app_nil_l. apply split_at_separator. discriminate.
  - rewrite <- app_comm_cons, split_cons_no_match.
    + rewrite IH; [reflexivity |]. intros Hin. apply H. right. exact Hin.
    + apply startswith_first_char. intros ->. apply H. left. reflexivity.
Qed.

Lemma startswith_within (p u v : pystr) :
  List.length p <= List.length u ->
  Str.startswith p (u ++ v) = Str.startswith p u.
Proof.
  revert u. induction p as [|c p IH]; intros u H; [reflexivity |].
  destruct u as [|d u]; [cbn in H; lia |].
  cbn [app Str.startswith]. rewrite IH; [reflexivity | cbn in H; lia].
Qed.

(** [split(sep, 1)] cuts at the first occurrence of the separator. *)
Lemma split1_at_first_occurrence (sep a b : pystr) :
  sep <> [] ->
  Str.contains sep (a ++ removelast sep) = false ->
  Str.split1 sep (a ++ sep ++ b) = [a; b].
Proof.
  intros Hsep. induction a as [|c a IH]; intros H.
  - cbn [app]. destruct sep as [|f sep']; [congruence |].
    cbn [app Str.split1].
    change (f :: sep' ++ b) with ((f :: sep') ++ b).
    rewrite startswith_app. f_equal. f_equal.
    rewrite skipn_app, skipn_all, Nat.sub_diag. reflexivity.
  - cbn [app Str.contains] in H. apply orb_false_iff in H.
    destruct H as [H1 H2].
    cbn [app Str.split1].
    assert (Hs : Str.startswith sep (c :: a ++ sep ++ b) = false).
    { pose proof (app_removelast_last 0%N Hsep) as Hsl.
      assert (Hlen : List.length sep = S (List.length (removelast sep))).
      { pose proof (f_equal (@List.length char) Hsl) as Hl.
        rewrite length_app, Nat.add_1_r in Hl. exact Hl. }
      assert (E : a ++ sep ++ b
                  = (a ++ removelast sep) ++ [last sep 0%N] ++ b).
      { rewrite <- app_assoc. f_equal. rewrite app_assoc. f_equal.
        exact Hsl. }
      rewrite E, app_comm_cons, startswith_within; [exact H1 |].
      cbn [List.length]. rewrite length_app. lia. }
    rewrite Hs, (IH H2). reflexivity.
Qed.

Lemma join_has_member (sep c : pystr) (l : list pystr) :
  In c l -> substring c (Str.join sep l).
Proof.
  induction l as [|x l IH]; [intros [] |].
  intros [-> | Hin].
  - destruct l; cbn [Str.join]; auto with substr.
  - destruct l as [|y l]; [destruct Hin |].
    cbn [Str.join]. apply substring_app_r, substring_app_r. exact (IH Hin).
Qed.

Lemma cons_head_no_char (c d : char) (l : list pystr) :
  c <> d -> Forall (fun p => ~ In d p) l ->
  Forall (fun p => ~ In d p) (Str.cons_head c l).
Proof.
  intros Hcd Hl. destruct l as [|h t]; cbn [Str.cons_head].
  - constructor; [| constructor]. intros [H | []]. congruence.
  - inversion Hl; subst. constructor; [| assumption].
    intros [H | H]; [congruence | contradiction].
Qed.

(** The pieces between the occurrences of a character do not hold it. *)
Lemma split_pieces_without_char (d : char) (s : pystr) :
  Forall (fun p => ~ In d p) (Str.split [d] s).
Proof.
  unfold Str.split. induction s as [|c s IH].
  - constructor; [intros [] | constructor].
  - cbn [Str.split_scan Str.startswith List.length Nat.sub].
    destruct (N.eqb_spec d c) as [->|Hdc]; cbn [andb].
    + constructor; [intros [] | exact IH].
    + apply cons_head_no_char; [congruence | exact IH].
Qed.

Lemma join_without_char (d : char) (sep : pystr) (l : list pystr) :
  ~ In d sep -> Forall (fun p => ~ In d p) l -> ~ In d (Str.join sep l).
Proof.
  intros Hsep. induction l as [|x l IH]; intros Hl; [intros [] |].
  inversion Hl; subst. destruct l as [|y l]; [assumption |].
  cbn [Str.join]. intros Hin.
  apply in_app_or in Hin. destruct Hin as [Hin | Hin]; [contradiction |].
  apply in_app_or in Hin. destruct Hin as [Hin | Hin]; [contradiction |].
  exact (IH H2 Hin).
Qed.

(** Replacing a character leaves none of it behind. *)
Lemma replace_removes_char (d : char) (new s : pystr) :
  ~ In d new -> ~ In d (Str.replace [d] new s).
Proof.
  intros H. unfold Str.replace.
  apply join_without_char; [exact H | apply split_pieces_without_char].
Qed.

End MoreStringFacts.

(** ** More on decode_attachments *)

(** X2: decode_attachments never returns more entries than it was given
    attachments. *)
Theorem X2_no_more_entries_than_attachments (E : Env) (fs : filesystem)
  (atts : list Attachment) :
  List.length (snd (decode_attachments E fs atts)) <= List.length atts.
Proof.
  revert fs. induction atts as [|a atts IH]; intros fs; [cbn; lia |].
  rewrite decode_attachments_cons. cbn [snd List.length].
  rewrite length_app.
  pose proof (decode_one_at_most_one E fs a).
  pose proof (IH (fst (decode_one E fs a))). lia.
Qed.

Lemma name_or_default_nonempty (att : Attachment) : name_or_default att <> [].
Proof.
  unfold name_or_default. destruct (att_name att) as [[|c n]|];
    cbn [Str.nonempty]; discriminate.
Qed.

Lemma decode_one_entry_shape (E : Env) (fs : filesystem) (att : Attachment)
  (d : DecodedAttachment) :
  In d (snd (decode_one E fs att)) ->
  da_name d = name_or_default att
  /\ da_path d = Path.tmp_join (da_name d)
  /\ open_wb_ok E (da_path d) = true
  /\ Str.startswith (lit "data:") (url_or_empty att) = true
  /\ exists data, fst (decode_one E fs att) (da_path d) = Content data
                  /\ da_size d = List.length data.
Proof.
  unfold decode_one, decode_try.
  destruct (Str.startswith (lit "data:") (url_or_empty att)) eqn:Hp;
    cbn [negb]; [| intros []].
  destruct (Str.split1 (lit ",") (url_or_empty att)) as [|h [|p [|x l]]];
    try (intros []).
  destruct (b64decode E p) as [data|]; [| intros []].
  destruct (open_wb_ok E (Path.tmp_join (name_or_default att))) eqn:Hw;
    [| intros []].
  cbn [snd fst]. intros [<- | []]. cbn [da_name da_path da_size].
  repeat split; try assumption.
  exists data. split; [apply fs_write_read | reflexivity].
Qed.

(** X3: every entry that decode_attachments returns comes from an input
    attachment whose url starts with data:; its name is that attachment's
    name or the default, never empty; its path is the name joined to the
    temporary directory, and the write at that path went through. *)
Theorem X3_entry_invariant (E : Env) (fs : filesystem)
  (atts : list Attachment) :
  Forall (fun d =>
            da_name d <> []
            /\ da_path d = Path.tmp_join (da_name d)
            /\ open_wb_ok E (da_path d) = true
            /\ exists att,
                 In att atts
                 /\ da_name d = name_or_default att
                 /\ Str.startswith (lit "data:") (url_or_empty att) = true)
         (snd (decode_attachments E fs atts)).
Proof.
  revert fs. induction atts as [|a atts IH]; intros fs; [constructor |].
  rewrite decode_attachments_cons. cbn [snd]. apply Forall_app. split.
  - apply Forall_forall. intros d Hd.
    destruct (decode_one_entry_shape E fs a d Hd) as [Hn [Hp [Hw [Hu _]]]].
    split; [rewrite Hn; apply name_or_default_nonempty |].
    split; [exact Hp |]. split; [exact Hw |].
    exists a. split; [left; reflexivity |]. split; assumption.
  - eapply Forall_impl; [| apply IH].
    intros d [H1 [H2 [H3 [att [Hin [H4 H5]]]]]].
    repeat (split; [assumption |]).
    exists att. split; [right; exact Hin |]. split; assumption.
Qed.

Lemma eqb_neq (a b : pystr) : a <> b -> Str.eqb a b = false.
Proof.
  intros H. destruct (Str.eqb a b) eqn:E; [| reflexivity].
  apply eqb_spec in E. contradiction.
Qed.

Lemma fs_write_other (fs : filesystem) (p q : pystr) (d : bytes) :
  resolve fs q <> resolve fs p -> fs_write fs p d q = fs q.
Proof.
  intros H. unfold fs_read, fs_write. cbn [resolve store].
  rewrite (eqb_neq _ _ H). reflexivity.
Qed.

Lemma fs_write_keeps_content (fs : filesystem) (p q : pystr) (d b : bytes) :
  fs q = Content b -> exists b', fs_write fs p d q = Content b'.
Proof.
  unfold fs_read, fs_write. cbn [resolve store]. intros H.
  destruct (Str.eqb (resolve fs q) (resolve fs p)); eauto.
Qed.

(** What one turn of the loop does to the files: nothing, or a write (whole
    or cut short) at the path of the attachment, whose url starts with
    data:. *)
Lemma decode_one_fs_cases (E : Env) (fs : filesystem) (att : Attachment) :
  fst (decode_one E fs att) = fs
  \/ exists data,
       Str.startswith (lit "data:") (url_or_empty att) = true
       /\ fst (decode_one E fs att)
          = fs_write fs (Path.tmp_join (name_or_default att)) data.
Proof.
  unfold decode_one, decode_try, fs_failed_write.
  destruct (Str.startswith (lit "data:") (url_or_empty att)) eqn:Hp;
    cbn [negb]; [| left; reflexivity].
  destruct (Str.split1 (lit ",") (url_or_empty att)) as [|h [|p [|x l]]];
    try (left; reflexivity).
  destruct (b64decode E p) as [data|]; [| left; reflexivity].
  destruct (open_wb_ok E (Path.tmp_join (name_or_default att))).
  - right. exists data. split; reflexivity.
  - destruct (failed_write_leaves E (Path.tmp_join (name_or_default att)) data)
      as [partial|]; [| left; reflexivity].
    right. exists partial. split; reflexivity.
Qed.

(** No step changes which file a path leads to. *)
Lemma decode_one_resolve (E : Env) (fs : filesystem) (att : Attachment) :
  resolve (fst (decode_one E fs att)) = resolve fs.
Proof.
  destruct (decode_one_fs_cases E fs att) as [-> | [data [_ ->]]];
    reflexivity.
Qed.

Lemma decode_attachments_keeps_content (E : Env) (atts : list Attachment)
  (fs : filesystem) (q : pystr) (b : bytes) :
  fs q = Content b ->
  exists b', fst (decode_attachments E fs atts) q = Content b'.
Proof.
  revert fs b. induction atts as [|a atts IH]; intros fs b H; [eauto |].
  rewrite decode_attachments_cons. cbn [fst].
  destruct (decode_one_fs_cases E fs a) as [-> | [data [_ ->]]].
  - exact (IH fs b H).
  - destruct (fs_write_keeps_content fs
                (Path.tmp_join (name_or_default a)) q data b H) as [b' Hb'].
    exact (IH _ b' Hb').
Qed.


(** A file that no attachment with a data: url leads to is left as it is,
    whether the writes go through or not. *)
Lemma decode_attachments_frame (E : Env) (atts : list Attachment)
  (fs : filesystem) (q : pystr) :
  (forall att,
     In att atts ->
     Str.startswith (lit "data:") (url_or_empty att) = true ->
     resolve fs q <> resolve fs (Path.tmp_join (name_or_default att))) ->
  fst (decode_attachments E fs atts) q = fs q.
Proof.
  revert fs. induction atts as [|a atts IH]; intros fs H; [reflexivity |].
  rewrite decode_attachments_cons. cbn [fst].
  rewrite IH.
  - destruct (decode_one_fs_cases E fs a) as [-> | [data [Hp ->]]];
      [reflexivity |].
    apply fs_write_other. apply H; [left; reflexivity | exact Hp].
  - intros att Hin Hp. rewrite decode_one_resolve.
    apply H; [right; exact Hin | exact Hp].
Qed.

(** X5: decode_attachments changes no file other than the files that the
    paths of its attachments with a data: url lead to: a file that none of
    these paths leads to is, after the call, what it was before, whether
    the writes went through or not. *)
Theorem X5_only_attachment_files_written (E : Env) (fs : filesystem)
  (atts : list Attachment) (q : pystr) :
  (forall att,
     In att atts ->
     Str.startswith (lit "data:") (url_or_empty att) = true ->
     resolve fs q <> resolve fs (Path.tmp_join (name_or_default att))) ->
  fst (decode_attachments E fs atts) q = fs q.
Proof. apply decode_attachments_frame. Qed.

Lemma X5_only_attachment_files_written_witness :
  let E := Ref.env Timeout in
  let q := lit "/tmp/llm_attachments/notes.txt" in
  (forall att,
     In att [Sample.csv_attachment; Sample.remote_attachment] ->
     Str.startswith (lit "data:") (url_or_empty att) = true ->
     resolve Cases.fs_with_notes q
     <> resolve Cases.fs_with_notes (Path.tmp_join (name_or_default att)))
  /\ fst (decode_attachments E Cases.fs_with_notes
            [Sample.csv_attachment; Sample.remote_attachment]) q
     = Content [104; 105; 10; 121; 111; 117]%N.
Proof.
  intros E q.
  assert (H : forall att,
     In att [Sample.csv_attachment; Sample.remote_attachment] ->
     Str.startswith (lit "data:") (url_or_empty att) = true ->
     resolve Cases.fs_with_notes q
     <> resolve Cases.fs_with_notes (Path.tmp_join (name_or_default att))).
  { intros att [<- | [<- | []]] Hp.
    - vm_compute. discriminate.
    - vm_compute in Hp. discriminate Hp. }
  split; [exact H |].
  rewrite (X5_only_attachment_files_written E Cases.fs_with_notes _ q H).
  reflexivity.
Defined.

(** X6: two attachments with the same name that both decode and are written
    give two entries with the same path, and the file at that path holds
    the payload of the second: the first payload is overwritten while its
    entry, with its own size, stays in the result. *)
Theorem X6_same_name_overwrites (E : Env) (fs : filesystem)
  (a1 a2 : Attachment) (h1 p1 h2 p2 : pystr) (d1 d2 : bytes) :
  name_or_default a1 = name_or_default a2 ->
  url_or_empty a1 = h1 ++ lit "," ++ p1 -> ~ In 44%N h1 ->
  Str.startswith (lit "data:") (url_or_empty a1) = true ->
  b64decode E p1 = Some d1 ->
  url_or_empty a2 = h2 ++ lit "," ++ p2 -> ~ In 44%N h2 ->
  Str.startswith (lit "data:") (url_or_empty a2) = true ->
  b64decode E p2 = Some d2 ->
  open_wb_ok E (Path.tmp_join (name_or_default a1)) = true ->
  let path := Path.tmp_join (name_or_default a1) in
  snd (decode_attachments E fs [a1; a2])
  = [{| da_name := name_or_default a1; da_path := path;
        da_mime := mime_of_header h1; da_size := List.length d1 |};
     {| da_name := name_or_default a1; da_path := path;
        da_mime := mime_of_header h2; da_size := List.length d2 |}]
  /\ fst (decode_attachments E fs [a1; a2]) path = Content d2.
Proof.
  intros Hname Hu1 Hc1 Hs1 Hb1 Hu2 Hc2 Hs2 Hb2 Hw path.
  assert (Hw2 : open_wb_ok E (Path.tmp_join (name_or_default a2)) = true)
    by (rewrite <- Hname; exact Hw).
  rewrite !decode_attachments_cons.
  rewrite (decode_one_saved E fs a1 h1 p1 d1 Hu1 Hc1 Hs1 Hb1 Hw).
  cbn [fst snd].
  rewrite (decode_one_saved E _ a2 h2 p2 d2 Hu2 Hc2 Hs2 Hb2 Hw2).
  cbn [fst snd decode_attachments app]. rewrite <- Hname. fold path.
  split; [reflexivity | apply fs_write_read].
Qed.

Lemma X6_same_name_overwrites_witness :
  let E := Ref.env Timeout in
  name_or_default Sample.csv_attachment
    = name_or_default Cases.other_csv_attachment
  /\ b64decode E (lit "YSxiCjEsMgo=") = Some Sample.csv_bytes
  /\ b64decode E (lit "eCx5Cg==") = Some Cases.other_csv_bytes
  /\ open_wb_ok E (Path.tmp_join (name_or_default Sample.csv_attachment)) = true
  /\ List.length
       (snd (decode_attachments E Ref.no_files
               [Sample.csv_attachment; Cases.other_csv_attachment])) = 2
  /\ fst (decode_attachments E Ref.no_files
            [Sample.csv_attachment; Cases.other_csv_attachment])
         (lit "/tmp/llm_attachments/data.csv")
     = Content Cases.other_csv_bytes.
Proof.
  intros E.
  assert (H0 : name_or_default Sample.csv_attachment
               = name_or_default Cases.other_csv_attachment) by reflexivity.
  assert (H1 : b64decode E (lit "YSxiCjEsMgo=") = Some Sample.csv_bytes)
    by reflexivity.
  assert (H2 : b64decode E (lit "eCx5Cg==") = Some Cases.other_csv_bytes)
    by reflexivity.
  assert (H3 : open_wb_ok E
                 (Path.tmp_join (name_or_default Sample.csv_attachment)) = true)
    by reflexivity.
  assert (Hc : ~ In 44%N (lit "data:text/csv;base64"))
    by (vm_compute; intuition discriminate).
  repeat (split; [assumption |]).
  destruct (X6_same_name_overwrites E Ref.no_files
              Sample.csv_attachment Cases.other_csv_attachment
              (lit "data:text/csv;base64") (lit "YSxiCjEsMgo=")
              (lit "data:text/csv;base64") (lit "eCx5Cg==")
              Sample.csv_bytes Cases.other_csv_bytes
              H0 eq_refl Hc eq_refl H1 eq_refl Hc eq_refl H2 H3) as [Hs Hf].
  split; [rewrite Hs; reflexivity | exact Hf].
Defined.

(** ** Paths *)

Lemma split_slash_free (s : pystr) :
  ~ In 47%N s -> Str.split Path.slash s = [s].
Proof. intros H. apply split_absent, contains_first_char. exact H. Qed.

Lemma startswith_slash_free (name : pystr) :
  ~ In 47%N name -> name <> [] -> Str.startswith Path.slash name = false.
Proof.
  intros H Hne. destruct name as [|c name]; [congruence |].
  apply startswith_first_char. intros ->. apply H. left. reflexivity.
Qed.

(** The path of a name that is not empty, has no slash and is not a single
    dot: the temporary directory, a slash, and the name. *)
Lemma plain_name_path (name : pystr) :
  name <> [] -> ~ In 47%N name -> name <> lit "." ->
  Path.tmp_join name = TMP_DIR ++ lit "/" ++ name.
Proof.
  intros Hne Hslash Hdot. unfold Path.tmp_join.
  rewrite (startswith_slash_free name Hslash Hne).
  unfold Path.normalize, Path.parts.
  assert (Hsplit : Str.split Path.slash (TMP_DIR ++ Path.slash ++ name)
                   = [[]; lit "tmp"; lit "llm_attachments"; name]).
  { change (TMP_DIR ++ Path.slash ++ name)
      with ([] ++ [47%N] ++ lit "tmp" ++ [47%N] ++ lit "llm_attachments"
            ++ [47%N] ++ name).
    change Path.slash with [47%N].
    rewrite (split_after_prefix 47%N [] []) by (intros []).
    rewrite (split_after_prefix 47%N [] (lit "tmp"))
      by (vm_compute; intuition discriminate).
    rewrite (split_after_prefix 47%N [] (lit "llm_attachments"))
      by (vm_compute; intuition discriminate).
    rewrite split_absent by (apply contains_first_char; exact Hslash).
    reflexivity. }
  rewrite Hsplit. cbn [filter].
  change (Str.nonempty [] && negb (Str.eqb [] (lit "."))) with false.
  change (Str.nonempty (lit "tmp") && negb (Str.eqb (lit "tmp") (lit ".")))
    with true.
  change (Str.nonempty (lit "llm_attachments")
          && negb (Str.eqb (lit "llm_attachments") (lit "."))) with true.
  rewrite (eqb_neq name (lit ".") Hdot).
  destruct name as [|c name]; [congruence |]. reflexivity.
Qed.

(** X7: for an attachment whose name is not empty, has no slash and is
    neither a single dot nor two dots, whose url is a valid data URI and
    whose write goes through, decode_attachments writes the decoded bytes
    to the file of exactly that name in the temporary directory,
    /tmp/llm_attachments/NAME, and the path of the entry is that string. *)
Theorem X7_plain_name_written (E : Env) (fs : filesystem) (att : Attachment)
  (name header payload : pystr) (data : bytes) :
  att_name att = Some name ->
  name <> [] -> ~ In 47%N name -> name <> lit "." -> name <> lit ".." ->
  url_or_empty att = header ++ lit "," ++ payload ->
  ~ In 44%N header ->
  Str.startswith (lit "data:") (url_or_empty att) = true ->
  b64decode E payload = Some data ->
  open_wb_ok E (lit "/tmp/llm_attachments/" ++ name) = true ->
  decode_attachments E fs [att]
  = (fs_write fs (lit "/tmp/llm_attachments/" ++ name) data,
     [{| da_name := name;
         da_path := lit "/tmp/llm_attachments/" ++ name;
         da_mime := mime_of_header header;
         da_size := List.length data |}])
  /\ fst (decode_attachments E fs [att]) (lit "/tmp/llm_attachments/" ++ name)
     = Content data.
Proof.
  intros Hname Hne Hslash Hdot _ Hurl Hcomma Hprefix Hdec Hw.
  assert (Hn : name_or_default att = name).
  { unfold name_or_default. rewrite Hname.
    destruct name; [congruence | reflexivity]. }
  assert (Hpath : Path.tmp_join (name_or_default att)
                  = lit "/tmp/llm_attachments/" ++ name).
  { rewrite Hn, (plain_name_path name Hne Hslash Hdot). reflexivity. }
  rewrite <- Hpath in Hw.
  rewrite decode_attachments_cons.
  rewrite (decode_one_saved E fs att header payload data
             Hurl Hcomma Hprefix Hdec Hw).
  cbn [fst snd decode_attachments app]. rewrite Hpath, Hn.
  split; [reflexivity | apply fs_write_read].
Qed.

Lemma X7_plain_name_written_witness :
  let E := Ref.env Timeout in
  att_name Sample.csv_attachment = Some (lit "data.csv")
  /\ lit "data.csv" <> []
  /\ ~ In 47%N (lit "data.csv")
  /\ lit "data.csv" <> lit "."
  /\ lit "data.csv" <> lit ".."
  /\ ~ In 44%N (lit "data:text/csv;base64")
  /\ b64decode E (lit "YSxiCjEsMgo=") = Some Sample.csv_bytes
  /\ open_wb_ok E (lit "/tmp/llm_attachments/" ++ lit "data.csv") = true
  /\ snd (decode_attachments E Ref.no_files [Sample.csv_attachment])
     = [Sample.csv_entry]
  /\ fst (decode_attachments E Ref.no_files [Sample.csv_attachment])
         (lit "/tmp/llm_attachments/data.csv")
     = Content Sample.csv_bytes.
Proof.
  intros E.
  assert (H0 : att_name Sample.csv_attachment = Some (lit "data.csv"))
    by reflexivity.
  assert (H1 : lit "data.csv" <> []) by discriminate.
  assert (H2 : ~ In 47%N (lit "data.csv"))
    by (vm_compute; intuition discriminate).
  assert (H3 : lit "data.csv" <> lit ".") by discriminate.
  assert (H4 : lit "data.csv" <> lit "..") by discriminate.
  assert (H5 : ~ In 44%N (lit "data:text/csv;base64"))
    by (vm_compute; intuition discriminate).
  assert (H6 : b64decode E (lit "YSxiCjEsMgo=") = Some Sample.csv_bytes)
    by reflexivity.
  assert (H7 : open_wb_ok E (lit "/tmp/llm_attachments/" ++ lit "data.csv")
               = true) by reflexivity.
  repeat (split; [assumption |]).
  destruct (X7_plain_name_written E Ref.no_files Sample.csv_attachment
              (lit "data.csv") (lit "data:text/csv;base64")
              (lit "YSxiCjEsMgo=") Sample.csv_bytes
              H0 H1 H2 H3 H4 eq_refl H5 eq_refl H6 H7) as [Hs Hf].
  split; [rewrite Hs; reflexivity | exact Hf].
Defined.

(** X8: a name that begins with a slash is not placed in the temporary
    directory: for a slash followed by one plain segment the path is the
    name itself. *)
Theorem X8_absolute_name_leaves_tmp_dir (segment : pystr) :
  segment <> [] -> ~ In 47%N segment -> segment <> lit "." ->
  Path.tmp_join (lit "/" ++ segment) = lit "/" ++ segment.
Proof.
  intros Hne Hslash Hdot. unfold Path.tmp_join.
  change (lit "/" ++ segment) with (Path.slash ++ segment).
  rewrite startswith_app.
  unfold Path.normalize, Path.parts, Path.root.
  rewrite startswith_app.
  assert (Hroot : Str.startswith (lit "//") (Path.slash ++ segment) = false).
  { destruct segment as [|c segment]; [congruence |].
    destruct (Str.startswith (lit "//") (Path.slash ++ c :: segment)) eqn:Hs;
      [| reflexivity].
    apply startswith_spec in Hs. destruct Hs as [t Ht].
    change (47%N :: c :: segment = 47%N :: 47%N :: t) in Ht.
    injection Ht as -> _. exfalso. apply Hslash. left. reflexivity. }
  rewrite Hroot. cbn [andb].
  assert (Hsplit : Str.split Path.slash (Path.slash ++ segment)
                   = [[]; segment]).
  { rewrite split_at_separator by discriminate.
    rewrite (split_slash_free segment Hslash). reflexivity. }
  rewrite Hsplit. cbn [filter].
  change (Str.nonempty [] && negb (Str.eqb [] (lit "."))) with false.
  rewrite (eqb_neq segment (lit ".") Hdot).
  destruct segment as [|c segment]; [congruence |]. reflexivity.
Qed.

Lemma X8_absolute_name_leaves_tmp_dir_witness :
  lit "passwd" <> []
  /\ ~ In 47%N (lit "passwd")
  /\ lit "passwd" <> lit "."
  /\ Path.tmp_join (lit "/passwd") = lit "/passwd".
Proof.
  assert (H1 : lit "passwd" <> []) by discriminate.
  assert (H2 : ~ In 47%N (lit "passwd"))
    by (vm_compute; intuition discriminate).
  assert (H3 : lit "passwd" <> lit ".") by discriminate.
  repeat (split; [assumption |]).
  exact (X8_absolute_name_leaves_tmp_dir (lit "passwd") H1 H2 H3).
Defined.

(** ** The MIME type of an entry *)

Lemma mime_of_header_plain (mime params : pystr) :
  ~ In 59%N mime ->
  Str.contains (lit "data:") mime = false ->
  mime_of_header (lit "data:" ++ mime ++ lit ";" ++ params) = mime
  /\ mime_of_header (lit "data:" ++ mime) = mime.
Proof.
  intros Hsemi Hdata.
  assert (Hhead : ~ In 59%N (lit "data:" ++ mime)).
  { intros Hin. apply in_app_or in Hin. destruct Hin as [Hin | Hin].
    - revert Hin. vm_compute. intuition discriminate.
    - contradiction. }
  assert (Hrep : Str.replace (lit "data:") [] (lit "data:" ++ mime) = mime).
  { unfold Str.replace. rewrite split_at_separator by discriminate.
    rewrite (split_absent _ _ Hdata). reflexivity. }
  unfold mime_of_header. split.
  - rewrite app_assoc.
    change (lit ";") with (@cons char 59%N (@nil char)).
    rewrite split_after_prefix by exact Hhead. exact Hrep.
  - change (lit ";") with (@cons char 59%N (@nil char)).
    rewrite split_absent by (apply contains_first_char; exact Hhead).
    exact Hrep.
Qed.

(** X9: for a url of the form data:MIME;base64,PAYLOAD in which MIME has no
    semicolon, no comma and no further data: in it, whose payload decodes
    and whose file is written, the one entry produced carries exactly MIME
    as its type and the length of the decoded payload as its size. *)
Theorem X9_mime_of_data_uri (E : Env) (fs : filesystem) (att : Attachment)
  (mime payload : pystr) (data : bytes) :
  url_or_empty att = lit "data:" ++ mime ++ lit ";base64," ++ payload ->
  ~ In 59%N mime -> ~ In 44%N mime ->
  Str.contains (lit "data:") mime = false ->
  b64decode E payload = Some data ->
  open_wb_ok E (Path.tmp_join (name_or_default att)) = true ->
  snd (decode_one E fs att)
  = [{| da_name := name_or_default att;
        da_path := Path.tmp_join (name_or_default att);
        da_mime := mime;
        da_size := List.length data |}].
Proof.
  intros Hurl Hsemi Hcomma Hdata Hdec Hw.
  assert (Hurl' : url_or_empty att
                  = (lit "data:" ++ mime ++ lit ";base64") ++ lit "," ++ payload).
  { rewrite Hurl, <- !app_assoc. reflexivity. }
  assert (Hc : ~ In 44%N (lit "data:" ++ mime ++ lit ";base64")).
  { intros Hin. apply in_app_or in Hin. destruct Hin as [Hin | Hin];
      [revert Hin; vm_compute; intuition discriminate |].
    apply in_app_or in Hin. destruct Hin as [Hin | Hin]; [contradiction |].
    revert Hin. vm_compute. intuition discriminate. }
  assert (Hp : Str.startswith (lit "data:") (url_or_empty att) = true)
    by (rewrite Hurl; apply startswith_app).
  rewrite (decode_one_saved E fs att _ payload data Hurl' Hc Hp Hdec Hw).
  cbn [snd]. f_equal. f_equal.
  exact (proj1 (mime_of_header_plain mime (lit "base64") Hsemi Hdata)).
Qed.

Lemma X9_mime_of_data_uri_witness :
  let E := Ref.env Timeout in
  url_or_empty Sample.csv_attachment
    = lit "data:" ++ lit "text/csv" ++ lit ";base64," ++ lit "YSxiCjEsMgo="
  /\ ~ In 59%N (lit "text/csv") /\ ~ In 44%N (lit "text/csv")
  /\ Str.contains (lit "data:") (lit "text/csv") = false
  /\ b64decode E (lit "YSxiCjEsMgo=") = Some Sample.csv_bytes
  /\ open_wb_ok E (Path.tmp_join (name_or_default Sample.csv_attachment)) = true
  /\ snd (decode_one E Ref.no_files Sample.csv_attachment) = [Sample.csv_entry].
Proof.
  intros E.
  assert (H1 : url_or_empty Sample.csv_attachment
    = lit "data:" ++ lit "text/csv" ++ lit ";base64," ++ lit "YSxiCjEsMgo=")
    by reflexivity.
  assert (H2 : ~ In 59%N (lit "text/csv"))
    by (vm_compute; intuition discriminate).
  assert (H3 : ~ In 44%N (lit "text/csv"))
    by (vm_compute; intuition discriminate).
  assert (H4 : Str.contains (lit "data:") (lit "text/csv") = false)
    by reflexivity.
  assert (H5 : b64decode E (lit "YSxiCjEsMgo=") = Some Sample.csv_bytes)
    by reflexivity.
  assert (H6 : open_wb_ok E
                 (Path.tmp_join (name_or_default Sample.csv_attachment)) = true)
    by reflexivity.
  repeat (split; [assumption |]).
  rewrite (X9_mime_of_data_uri E Ref.no_files Sample.csv_attachment
             _ _ _ H1 H2 H3 H4 H5 H6).
  reflexivity.
Defined.

(** ** More on _strip_code_block *)

Lemma lstrip_blank (s : pystr) :
  Str.lstrip s = [] <-> forallb Str.isspace s = true.
Proof.
  induction s as [|c s IH]; [split; reflexivity |].
  cbn [Str.lstrip forallb]. destruct (Str.isspace c); cbn [andb].
  - exact IH.
  - split; discriminate.
Qed.

Lemma forallb_rev (f : char -> bool) (s : pystr) :
  forallb f (rev s) = forallb f s.
Proof.
  induction s as [|c s IH]; [reflexivity |].
  cbn [rev forallb]. rewrite forallb_app, IH. cbn [forallb].
  rewrite andb_true_r. apply andb_comm.
Qed.

(** A text trims to nothing exactly when it is all white space. *)
Lemma strip_blank (s : pystr) :
  Str.strip s = [] <-> forallb Str.isspace s = true.
Proof.
  unfold Str.strip, Str.rstrip. split.
  - intros H.
    destruct (lstrip_shape s) as [Hl | [c [r [Hl Hc]]]];
      [apply lstrip_blank; exact Hl |].
    exfalso. rewrite Hl in H.
    destruct (rstrip_cons_nonspace c r Hc) as [t Ht].
    unfold Str.rstrip in Ht. rewrite H in Ht. discriminate.
  - intros H. apply lstrip_blank in H. rewrite H. reflexivity.
Qed.

Lemma strip_app_not_blank_l (a b : pystr) :
  Str.strip a <> [] -> Str.strip (a ++ b) <> [].
Proof.
  intros Ha H. apply Ha. apply strip_blank. apply strip_blank in H.
  rewrite forallb_app in H. apply andb_true_iff in H. tauto.
Qed.

Lemma strip_part_trimmed (part : pystr) :
  Str.strip (strip_part part) = strip_part part.
Proof.
  unfold strip_part.
  destruct (Str.split1 [NL] part) as [|l0 [|l1 [|x l]]];
    try apply strip_idem.
  destruct (negb (Str.startswith (lit "<") (Str.strip l0))); apply strip_idem.
Qed.

Lemma first_block_trimmed (parts : list pystr) (inner : pystr) :
  first_block parts = Some inner -> Str.strip inner = inner.
Proof.
  induction parts as [|p parts IH]; [discriminate |].
  cbn [first_block]. destruct (Str.nonempty (Str.strip p)); [| exact IH].
  intros H. injection H as <-. apply strip_part_trimmed.
Qed.

Lemma strip_code_block_trimmed (text : pystr) :
  Str.strip (_strip_code_block text) = _strip_code_block text.
Proof.
  unfold _strip_code_block.
  destruct (Str.contains FENCE text); [| apply strip_idem].
  destruct (first_block (tl (Str.split FENCE text))) as [inner|] eqn:H;
    [| apply strip_idem].
  exact (first_block_trimmed _ _ H).
Qed.

(** X10: whatever the text, the result of _strip_code_block has no white
    space at either end: trimming it again changes nothing, and it is
    either empty or begins and ends with a character that is not white
    space. *)
Theorem X10_strip_code_block_trimmed (text : pystr) :
  Str.strip (_strip_code_block text) = _strip_code_block text
  /\ (_strip_code_block text = []
      \/ exists c r, _strip_code_block text = c :: r
                     /\ Str.isspace c = false
                     /\ Str.isspace (last (c :: r) c) = false).
Proof.
  pose proof (strip_code_block_trimmed text) as H.
  split; [exact H |].
  destruct (_strip_code_block text) as [|c r] eqn:E; [left; reflexivity |].
  right. exists c, r. split; [reflexivity |].
  unfold Str.strip in H.
  destruct (lstrip_shape (c :: r)) as [Hl | [c' [r' [Hl Hc']]]].
  - rewrite Hl in H. discriminate H.
  - assert (Hc : Str.isspace c = false).
    { cbn [Str.lstrip] in Hl. destruct (Str.isspace c) eqn:Hc;
        [| reflexivity].
      exfalso. cbn [Str.lstrip] in H. rewrite Hc, Hl in H.
      destruct (rstrip_cons_nonspace c' r' Hc') as [t Ht].
      rewrite Ht in H. injection H as Hcc _. congruence. }
    split; [exact Hc |].
    rewrite (lstrip_nonspace c r Hc) in H. unfold Str.rstrip in H.
    destruct (lstrip_shape (rev (c :: r))) as [Hr | [d [u [Hr Hd]]]].
    + rewrite Hr in H. discriminate H.
    + rewrite Hr in H. cbn [rev] in H.
      rewrite <- H. rewrite last_last. exact Hd.
Qed.

Lemma fence_cons :
  FENCE = @cons char 96%N (@cons char 96%N (@cons char 96%N (@nil char))).
Proof. reflexivity. Qed.

(** The first fenced block of a text: what comes before the opening fence
    and after the closing fence is not looked at. *)
Lemma strip_code_block_first_block (pre body post : pystr) :
  ~ In 96%N pre -> ~ In 96%N body -> Str.strip body <> [] ->
  _strip_code_block (pre ++ FENCE ++ body ++ FENCE ++ post) = strip_part body.
Proof.
  intros Hpre Hbody Hblank. unfold _strip_code_block.
  rewrite contains_middle.
  rewrite fence_cons.
  rewrite split_after_prefix by exact Hpre.
  rewrite split_after_prefix by exact Hbody.
  cbn [tl first_block].
  destruct (Str.strip body) eqn:Hs; [congruence |]. reflexivity.
Qed.

(** X11: when the text holds a fenced block whose first line is a language
    tag (a line that, trimmed, does not begin with <), the result is the
    trimmed text of the block after that line; the tag, the text before the
    opening fence and the text after the closing fence are dropped. *)
Theorem X11_language_tag_dropped (pre tag content post : pystr) :
  ~ In 96%N pre -> ~ In 96%N tag -> ~ In 96%N content ->
  ~ In NL tag ->
  Str.startswith (lit "<") (Str.strip tag) = false ->
  Str.strip (tag ++ NL :: content) <> [] ->
  _strip_code_block (pre ++ FENCE ++ (tag ++ NL :: content) ++ FENCE ++ post)
  = Str.strip content.
Proof.
  intros Hpre Htag Hcontent Hnl Hlt Hblank.
  rewrite strip_code_block_first_block; [| exact Hpre | | exact Hblank].
  - unfold strip_part. rewrite (split1_at_first NL tag content Hnl).
    rewrite Hlt. reflexivity.
  - intros Hin. apply in_app_or in Hin. destruct Hin as [Hin | [Hin | Hin]].
    + contradiction.
    + discriminate Hin.
    + contradiction.
Qed.

Lemma X11_language_tag_dropped_witness :
  let pre := lit "Here is the app:
" in
  let tag := lit "html" in
  let content := lit "<p>hi</p>
" in
  let post := lit "
Enjoy!" in
  ~ In 96%N pre /\ ~ In 96%N tag /\ ~ In 96%N content /\ ~ In NL tag
  /\ Str.startswith (lit "<") (Str.strip tag) = false
  /\ Str.strip (tag ++ NL :: content) <> []
  /\ _strip_code_block Cases.chatty_answer = lit "<p>hi</p>".
Proof.
  intros pre tag content post.
  assert (H1 : ~ In 96%N pre) by (vm_compute; intuition discriminate).
  assert (H2 : ~ In 96%N tag) by (vm_compute; intuition discriminate).
  assert (H3 : ~ In 96%N content) by (vm_compute; intuition discriminate).
  assert (H4 : ~ In NL tag) by (vm_compute; intuition discriminate).
  assert (H5 : Str.startswith (lit "<") (Str.strip tag) = false)
    by reflexivity.
  assert (H6 : Str.strip (tag ++ NL :: content) <> [])
    by (vm_compute; discriminate).
  repeat (split; [assumption |]).
  change Cases.chatty_answer
    with (pre ++ FENCE ++ (tag ++ NL :: content) ++ FENCE ++ post).
  rewrite (X11_language_tag_dropped pre tag content post H1 H2 H3 H4 H5 H6).
  reflexivity.
Defined.

(** X12: when the first line of the fenced block, trimmed, begins with <,
    no line is dropped: the result is the whole block, trimmed. *)
Theorem X12_markup_first_line_kept (pre first more post : pystr) :
  ~ In 96%N pre -> ~ In 96%N first -> ~ In 96%N more ->
  ~ In NL first ->
  Str.startswith (lit "<") (Str.strip first) = true ->
  _strip_code_block (pre ++ FENCE ++ (first ++ NL :: more) ++ FENCE ++ post)
  = Str.strip (first ++ NL :: more).
Proof.
  intros Hpre Hfirst Hmore Hnl Hlt.
  rewrite strip_code_block_first_block; [| exact Hpre | |].
  - unfold strip_part. rewrite (split1_at_first NL first more Hnl).
    rewrite Hlt. reflexivity.
  - intros Hin. apply in_app_or in Hin. destruct Hin as [Hin | [Hin | Hin]].
    + contradiction.
    + discriminate Hin.
    + contradiction.
  - apply strip_app_not_blank_l. intros H. rewrite H in Hlt. discriminate.
Qed.

Lemma X12_markup_first_line_kept_witness :
  let first := lit "<html>" in
  let more := lit "<body>hi</body></html>
" in
  ~ In 96%N (@nil char) /\ ~ In 96%N first /\ ~ In 96%N more /\ ~ In NL first
  /\ Str.startswith (lit "<") (Str.strip first) = true
  /\ _strip_code_block ([] ++ FENCE ++ (first ++ NL :: more) ++ FENCE ++ [])
     = lit "<html>
<body>hi</body></html>".
Proof.
  intros first more.
  assert (H1 : ~ In 96%N (@nil char)) by (intros []).
  assert (H2 : ~ In 96%N first) by (vm_compute; intuition discriminate).
  assert (H3 : ~ In 96%N more) by (vm_compute; intuition discriminate).
  assert (H4 : ~ In NL first) by (vm_compute; intuition discriminate).
  assert (H5 : Str.startswith (lit "<") (Str.strip first) = true)
    by reflexivity.
  repeat (split; [assumption |]).
  rewrite (X12_markup_first_line_kept [] first more [] H1 H2 H3 H4 H5).
  reflexivity.
Defined.

(** ** More on the extraction step and the result *)

Lemma separator_first_split (code rest fallback : pystr) :
  Str.contains SEPARATOR (code ++ removelast SEPARATOR) = false ->
  split_response (JStr (code ++ SEPARATOR ++ rest)) fallback
  = Ok (_strip_code_block code, _strip_code_block rest).
Proof.
  intros H. unfold split_response. cbn [Py.contains bind].
  rewrite contains_middle.
  rewrite (split1_at_first_occurrence SEPARATOR code rest separator_nonempty H).
  reflexivity.
Qed.

(** X13: when the raw text has the separator, the text is cut at its first
    occurrence only: index.html comes from the text before it and README.md
    is the code-block-stripped text after it, later separators included. *)
Theorem X13_cut_at_first_separator (E : Env) (fs : filesystem) (brief : pystr)
  (atts : option (list Attachment)) (checks : option (list pystr))
  (round_num : Z) (prev_readme : option pystr) (code rest : pystr) :
  raw_text_of_call E fs brief atts checks round_num prev_readme
    = JStr (code ++ SEPARATOR ++ rest) ->
  Str.contains SEPARATOR (code ++ removelast SEPARATOR) = false ->
  exists r,
    snd (generate_app_code E fs brief atts checks round_num prev_readme) = Ok r
    /\ index_html (files r) = validate_code brief (_strip_code_block code)
    /\ readme_md (files r) = _strip_code_block rest.
Proof.
  intros Ht Hfirst. rewrite generate_app_code_unfold, Ht.
  rewrite (separator_first_split code rest _ Hfirst).
  cbn [bind fst snd]. eexists. repeat split.
Qed.

Lemma X13_cut_at_first_separator_witness :
  let E := Ref.env (Ref.answer (JStr Cases.two_separator_answer)) in
  raw_text_of_call E Ref.no_files Sample.brief None None 1 None
    = JStr (lit "<p>hi</p>" ++ SEPARATOR ++ lit "# Notes---README.md---more")
  /\ Str.contains SEPARATOR (lit "<p>hi</p>" ++ removelast SEPARATOR) = false
  /\ exists r,
       snd (generate_app_code E Ref.no_files Sample.brief None None 1 None)
       = Ok r
       /\ index_html (files r) = lit "<p>hi</p>"
       /\ readme_md (files r) = lit "# Notes---README.md---more".
Proof.
  intros E.
  assert (H1 : raw_text_of_call E Ref.no_files Sample.brief None None 1 None
    = JStr (lit "<p>hi</p>" ++ SEPARATOR ++ lit "# Notes---README.md---more"))
    by reflexivity.
  assert (H2 : Str.contains SEPARATOR (lit "<p>hi</p>" ++ removelast SEPARATOR)
               = false) by reflexivity.
  split; [exact H1 |]. split; [exact H2 |].
  destruct (X13_cut_at_first_separator E Ref.no_files Sample.brief None None
              1 None _ _ H1 H2) as [r [Hr [Hi Hm]]].
  exists r. split; [exact Hr |]. split.
  - rewrite Hi. reflexivity.
  - rewrite Hm. reflexivity.
Defined.

(** With an empty raw text both files are the fallback ones. *)
Lemma empty_text_full_fallback (E : Env) (fs : filesystem) (brief : pystr)
  (atts : option (list Attachment)) (checks : option (list pystr))
  (round_num : Z) (prev_readme : option pystr) :
  raw_text_of_call E fs brief atts checks round_num prev_readme = JStr [] ->
  exists r,
    snd (generate_app_code E fs brief atts checks round_num prev_readme) = Ok r
    /\ index_html (files r) = fallback_html brief
    /\ readme_md (files r)
       = generate_readme_fallback brief checks (summary_of_call E fs atts)
           round_num.
Proof.
  intros Ht. rewrite generate_app_code_unfold, Ht.
  change (split_response (JStr []) ?fb) with (Ok (@nil char, fb)).
  cbn [bind fst snd]. eexists. repeat split.
Qed.

(** X14: a body that is not JSON, a body from which the text field cannot
    be read, and a body whose text field is the empty string are handled
    like a failed request: the call returns with the fallback document as
    index.html and the fallback README as README.md. *)
Theorem X14_unusable_body_falls_back (E : Env) (fs : filesystem)
  (brief : pystr) (atts : option (list Attachment))
  (checks : option (list pystr)) (round_num : Z) (prev_readme : option pystr) :
  (outcome_of_call E fs brief atts checks round_num prev_readme = BodyNotJson
   \/ exists parsed,
        outcome_of_call E fs brief atts checks round_num prev_readme
          = Body parsed
        /\ (extract_text parsed = Ok (JStr [])
            \/ exists e, extract_text parsed = Raise e)) ->
  exists r,
    snd (generate_app_code E fs brief atts checks round_num prev_readme) = Ok r
    /\ index_html (files r) = fallback_html brief
    /\ readme_md (files r)
       = generate_readme_fallback brief checks (summary_of_call E fs atts)
           round_num.
Proof.
  intros H. apply empty_text_full_fallback. unfold raw_text_of_call.
  destruct H as [-> | [parsed [-> [Hx | [e Hx]]]]];
    unfold text_after_call, call_llm; try rewrite Hx; reflexivity.
Qed.

Lemma X14_unusable_body_falls_back_witness :
  let E := Ref.env (Ref.answer (JStr [])) in
  (outcome_of_call E Ref.no_files Sample.brief None None 1 None = BodyNotJson
   \/ exists parsed,
        outcome_of_call E Ref.no_files Sample.brief None None 1 None
          = Body parsed
        /\ (extract_text parsed = Ok (JStr [])
            \/ exists e, extract_text parsed = Raise e))
  /\ exists r,
       snd (generate_app_code E Ref.no_files Sample.brief None None 1 None)
       = Ok r
       /\ index_html (files r) = fallback_html Sample.brief.
Proof.
  intros E.
  assert (H : outcome_of_call E Ref.no_files Sample.brief None None 1 None
                = BodyNotJson
   \/ exists parsed,
        outcome_of_call E Ref.no_files Sample.brief None None 1 None
          = Body parsed
        /\ (extract_text parsed = Ok (JStr [])
            \/ exists e, extract_text parsed = Raise e)).
  { right. eexists. split; [reflexivity |]. left. reflexivity. }
  split; [exact H |].
  destruct (X14_unusable_body_falls_back E Ref.no_files Sample.brief None None
              1 None H) as [r [Hr [Hi _]]].
  exists r. split; assumption.
Defined.

(** The text field of bodies that lack the expected keys. *)
Lemma extract_text_without_candidates (kvs : list (pystr * json)) :
  Py.assoc (lit "candidates") kvs = None ->
  extract_text (JObj kvs) = Ok (JStr []).
Proof.
  intros H. unfold extract_text. cbn [Py.get bind]. rewrite H. reflexivity.
Qed.

Lemma extract_text_empty_candidates (kvs : list (pystr * json)) :
  Py.assoc (lit "candidates") kvs = Some (JArr []) ->
  extract_text (JObj kvs) = Raise IndexError.
Proof.
  intros H. unfold extract_text. cbn [Py.get bind]. rewrite H. reflexivity.
Qed.

Lemma extract_text_not_object (parsed : json) :
  (forall kvs, parsed <> JObj kvs) ->
  extract_text parsed = Raise AttributeError.
Proof.
  intros H. destruct parsed; try reflexivity. exfalso. exact (H kvs eq_refl).
Qed.

(** X15: a parsed body that is not an object, an object with no candidates
    key, and an object whose candidates list is empty all lead to the full
    fallback result; none of them makes the call raise. *)
Theorem X15_missing_keys_fall_back (E : Env) (fs : filesystem)
  (brief : pystr) (atts : option (list Attachment))
  (checks : option (list pystr)) (round_num : Z) (prev_readme : option pystr)
  (parsed : json) :
  outcome_of_call E fs brief atts checks round_num prev_readme = Body parsed ->
  ((forall kvs, parsed <> JObj kvs)
   \/ exists kvs,
        parsed = JObj kvs
        /\ (Py.assoc (lit "candidates") kvs = None
            \/ Py.assoc (lit "candidates") kvs = Some (JArr []))) ->
  exists r,
    snd (generate_app_code E fs brief atts checks round_num prev_readme) = Ok r
    /\ index_html (files r) = fallback_html brief
    /\ readme_md (files r)
       = generate_readme_fallback brief checks (summary_of_call E fs atts)
           round_num.
Proof.
  intros Ho H. apply empty_text_full_fallback.
  unfold raw_text_of_call. rewrite Ho. unfold text_after_call, call_llm.
  destruct H as [H | [kvs [-> [H | H]]]].
  - rewrite (extract_text_not_object parsed H). reflexivity.
  - rewrite (extract_text_without_candidates kvs H). reflexivity.
  - rewrite (extract_text_empty_candidates kvs H). reflexivity.
Qed.

Lemma X15_missing_keys_fall_back_witness :
  let E := Ref.env (Body Cases.body_without_candidates) in
  outcome_of_call E Ref.no_files Sample.brief None None 1 None
    = Body Cases.body_without_candidates
  /\ Py.assoc (lit "candidates") [(lit "error", JStr (lit "quota exceeded"))]
     = None
  /\ exists r,
       snd (generate_app_code E Ref.no_files Sample.brief None None 1 None)
       = Ok r
       /\ index_html (files r) = fallback_html Sample.brief.
Proof.
  intros E.
  assert (H1 : outcome_of_call E Ref.no_files Sample.brief None None 1 None
               = Body Cases.body_without_candidates) by reflexivity.
  assert (H2 : Py.assoc (lit "candidates")
                 [(lit "error", JStr (lit "quota exceeded"))] = None)
    by reflexivity.
  split; [exact H1 |]. split; [exact H2 |].
  destruct (X15_missing_keys_fall_back E Ref.no_files Sample.brief None None
              1 None Cases.body_without_candidates H1
              (or_intror (ex_intro _ _ (conj eq_refl (or_introl H2)))))
    as [r [Hr [Hi _]]].
  exists r. split; assumption.
Defined.

Lemma validate_code_keeps_markup (brief text : pystr) :
  Str.startswith (lit "<") (_strip_code_block text) = true ->
  validate_code brief (_strip_code_block text) = _strip_code_block text.
Proof.
  intros H. unfold validate_code.
  rewrite strip_code_block_trimmed, H. reflexivity.
Qed.

Lemma validate_code_replaces_other (brief text : pystr) :
  Str.startswith (lit "<") (_strip_code_block text) = false ->
  validate_code brief (_strip_code_block text) = fallback_html brief.
Proof.
  intros H. unfold validate_code.
  rewrite strip_code_block_trimmed, H. reflexivity.
Qed.

(** X16: when the raw text has no separator and its stripped code begins
    with <, index.html is exactly that stripped code, unchanged, and
    README.md is the fallback README. *)
Theorem X16_markup_passed_through (E : Env) (fs : filesystem) (brief : pystr)
  (atts : option (list Attachment)) (checks : option (list pystr))
  (round_num : Z) (prev_readme : option pystr) (text : pystr) :
  raw_text_of_call E fs brief atts checks round_num prev_readme = JStr text ->
  Str.contains SEPARATOR text = false ->
  Str.startswith (lit "<") (_strip_code_block text) = true ->
  exists r,
    snd (generate_app_code E fs brief atts checks round_num prev_readme) = Ok r
    /\ index_html (files r) = _strip_code_block text
    /\ readme_md (files r)
       = generate_readme_fallback brief checks (summary_of_call E fs atts)
           round_num.
Proof.
  intros Ht Hsep Hlt. rewrite generate_app_code_unfold, Ht.
  unfold split_response. cbn [Py.contains bind strip_code_block_any].
  rewrite Hsep. cbn [bind fst snd]. eexists. split; [reflexivity |].
  cbn [files index_html readme_md].
  rewrite (validate_code_keeps_markup brief text Hlt). split; reflexivity.
Qed.

Lemma X16_markup_passed_through_witness :
  let E := Ref.env (Ref.answer (JStr Cases.chatty_answer)) in
  raw_text_of_call E Ref.no_files Sample.brief None None 1 None
    = JStr Cases.chatty_answer
  /\ Str.contains SEPARATOR Cases.chatty_answer = false
  /\ Str.startswith (lit "<") (_strip_code_block Cases.chatty_answer) = true
  /\ exists r,
       snd (generate_app_code E Ref.no_files Sample.brief None None 1 None)
       = Ok r
       /\ index_html (files r) = lit "<p>hi</p>".
Proof.
  intros E.
  assert (H1 : raw_text_of_call E Ref.no_files Sample.brief None None 1 None
               = JStr Cases.chatty_answer) by reflexivity.
  assert (H2 : Str.contains SEPARATOR Cases.chatty_answer = false)
    by reflexivity.
  assert (H3 : Str.startswith (lit "<") (_strip_code_block Cases.chatty_answer)
               = true) by reflexivity.
  repeat (split; [assumption |]).
  destruct (X16_markup_passed_through E Ref.no_files Sample.brief None None
              1 None _ H1 H2 H3) as [r [Hr [Hi _]]].
  exists r. split; [exact Hr |]. rewrite Hi. reflexivity.
Defined.

(** X17: when the text before the first separator does not strip to
    markup, index.html is replaced by the fallback document while the
    README that the model wrote after the separator is kept. *)
Theorem X17_readme_kept_when_markup_replaced (E : Env) (fs : filesystem)
  (brief : pystr) (atts : option (list Attachment))
  (checks : option (list pystr)) (round_num : Z) (prev_readme : option pystr)
  (code rest : pystr) :
  raw_text_of_call E fs brief atts checks round_num prev_readme
    = JStr (code ++ SEPARATOR ++ rest) ->
  Str.contains SEPARATOR (code ++ removelast SEPARATOR) = false ->
  Str.startswith (lit "<") (_strip_code_block code) = false ->
  exists r,
    snd (generate_app_code E fs brief atts checks round_num prev_readme) = Ok r
    /\ index_html (files r) = fallback_html brief
    /\ readme_md (files r) = _strip_code_block rest.
Proof.
  intros Ht Hfirst Hlt. rewrite generate_app_code_unfold, Ht.
  rewrite (separator_first_split code rest _ Hfirst).
  cbn [bind fst snd]. eexists. split; [reflexivity |].
  cbn [files index_html readme_md].
  rewrite (validate_code_replaces_other brief code Hlt). split; reflexivity.
Qed.

Lemma X17_readme_kept_when_markup_replaced_witness :
  let E := Ref.env (Ref.answer (JStr Cases.prose_answer)) in
  raw_text_of_call E Ref.no_files Sample.brief None None 1 None
    = JStr (lit "Sorry, I cannot do that." ++ SEPARATOR ++ lit "# Notes")
  /\ Str.contains SEPARATOR
       (lit "Sorry, I cannot do that." ++ removelast SEPARATOR) = false
  /\ Str.startswith (lit "<")
       (_strip_code_block (lit "Sorry, I cannot do that.")) = false
  /\ exists r,
       snd (generate_app_code E Ref.no_files Sample.brief None None 1 None)
       = Ok r
       /\ index_html (files r) = fallback_html Sample.brief
       /\ readme_md (files r) = lit "# Notes".
Proof.
  intros E.
  assert (H1 : raw_text_of_call E Ref.no_files Sample.brief None None 1 None
    = JStr (lit "Sorry, I cannot do that." ++ SEPARATOR ++ lit "# Notes"))
    by reflexivity.
  assert (H2 : Str.contains SEPARATOR
       (lit "Sorry, I cannot do that." ++ removelast SEPARATOR) = false)
    by reflexivity.
  assert (H3 : Str.startswith (lit "<")
       (_strip_code_block (lit "Sorry, I cannot do that.")) = false)
    by reflexivity.
  repeat (split; [assumption |]).
  destruct (X17_readme_kept_when_markup_replaced E Ref.no_files Sample.brief
              None None 1 None _ _ H1 H2 H3) as [r [Hr [Hi Hm]]].
  exists r. split; [exact Hr |]. split; [exact Hi |].
  rewrite Hm. reflexivity.
Defined.

(** ** More on the prompt and the fallback README *)

Lemma context_note_unused (round_num : Z) (prev_readme : option pystr) :
  round_num <> 2%Z \/ prev_readme = Some [] ->
  context_note round_num prev_readme = [].
Proof.
  intros [H | ->]; unfold context_note.
  - destruct prev_readme; [| reflexivity].
    destruct (Z.eqb_spec round_num 2); [contradiction | reflexivity].
  - cbn [Str.nonempty]. rewrite andb_false_r. reflexivity.
Qed.

(** X18: the previous README is used only when the round number is exactly
    2 and the README is not empty: for every other round number, and for an
    empty previous README, the prompt is the one built with no previous
    README at all. *)
Theorem X18_previous_readme_only_in_round_2 (E : Env) (fs : filesystem)
  (brief : pystr) (atts : option (list Attachment))
  (checks : option (list pystr)) (round_num : Z) (prev_readme : option pystr) :
  round_num <> 2%Z \/ prev_readme = Some [] ->
  prompt_of_call E fs brief atts checks round_num prev_readme
  = prompt_of_call E fs brief atts checks round_num None.
Proof.
  intros H. unfold prompt_of_call, user_prompt.
  rewrite (context_note_unused round_num prev_readme H). reflexivity.
Qed.

Lemma X18_previous_readme_only_in_round_2_witness :
  let E := Ref.env Timeout in
  (3%Z <> 2%Z \/ Some (lit "# Old notes") = Some (@nil char))
  /\ prompt_of_call E Ref.no_files Sample.brief None None 3
       (Some (lit "# Old notes"))
     = prompt_of_call E Ref.no_files Sample.brief None None 3 None.
Proof.
  intros E.
  assert (H : 3%Z <> 2%Z \/ Some (lit "# Old notes") = Some (@nil char))
    by (left; discriminate).
  split; [exact H |].
  exact (X18_previous_readme_only_in_round_2 E Ref.no_files Sample.brief
           None None 3 (Some (lit "# Old notes")) H).
Defined.

(** X19: every prompt, whatever the inputs, names the separator that the
    answer must use, and holds the round number, the attachment summary
    and the list of checks. *)
Theorem X19_prompt_contents (E : Env) (brief meta : pystr)
  (checks : option (list pystr)) (round_num : Z) (prev_readme : option pystr) :
  let prompt := user_prompt E brief meta checks round_num prev_readme in
  substring SEPARATOR prompt
  /\ substring (Str.of_Z round_num) prompt
  /\ substring meta prompt
  /\ substring (repr_list E (checks_or_empty checks)) prompt.
Proof.
  cbn zeta. unfold user_prompt. repeat split.
  - do 10 apply substring_app_r. apply contains_spec. reflexivity.
  - auto 4 with substr.
  - auto 10 with substr.
  - auto 12 with substr.
Qed.

(** X20: the fallback README holds the round number, the brief, the
    attachment summary and every one of the checks. *)
Theorem X20_fallback_readme_contents (brief : pystr)
  (checks : option (list pystr)) (meta : pystr) (round_num : Z) :
  let readme := generate_readme_fallback brief checks meta round_num in
  substring (Str.of_Z round_num) readme
  /\ substring brief readme
  /\ substring meta readme
  /\ Forall (fun check => substring check readme) (checks_or_empty checks).
Proof.
  cbn zeta. unfold generate_readme_fallback. repeat split.
  - auto 4 with substr.
  - auto 6 with substr.
  - auto 8 with substr.
  - apply Forall_forall. intros check Hin.
    do 7 apply substring_app_r. apply substring_app_l.
    apply join_has_member. exact Hin.
Qed.

(** ** More on the summaries and on the files of a call *)

Lemma In_firstn (A : Type) (x : A) (n : nat) (l : list A) :
  In x (firstn n l) -> In x l.
Proof.
  revert l. induction n as [|n IH]; intros [|y l] Hin; cbn [firstn] in Hin;
    try (destruct Hin; fail).
  destruct Hin as [-> | Hin]; [left; reflexivity | right; exact (IH l Hin)].
Qed.

(** X21: for an entry that is previewed as text and is not a .csv file,
    when its file can be read the summary line is the preview line, and the
    preview in it is at most 1000 characters long and holds no newline
    character: every newline of the file is written as a backslash and the
    letter n. *)
Theorem X21_text_preview_bounded (E : Env) (fs : filesystem)
  (s : DecodedAttachment) (b : bytes) :
  Str.startswith (lit "text") (da_mime s)
  || Str.endswith_any text_suffixes (da_name s) = true ->
  Str.endswith (lit ".csv") (da_name s) = false ->
  fs (da_path s) = Content b ->
  exists preview,
    summarize_one E fs s = preview_line (da_name s) (da_mime s) preview
    /\ List.length preview <= 1000
    /\ ~ In NL preview.
Proof.
  intros Htext Hcsv Hfs. unfold summarize_one, summary_try.
  rewrite Htext, Hfs, Hcsv.
  eexists. split; [reflexivity |]. split.
  - rewrite length_firstn. apply Nat.le_min_l.
  - intros Hin. apply In_firstn in Hin. revert Hin.
    apply replace_removes_char. vm_compute. intuition discriminate.
Qed.

Lemma X21_text_preview_bounded_witness :
  let E := Ref.env Timeout in
  Str.startswith (lit "text") (da_mime Cases.notes_entry)
  || Str.endswith_any text_suffixes (da_name Cases.notes_entry) = true
  /\ Str.endswith (lit ".csv") (da_name Cases.notes_entry) = false
  /\ Cases.fs_with_notes (da_path Cases.notes_entry)
     = Content [104; 105; 10; 121; 111; 117]%N
  /\ summarize_one E Cases.fs_with_notes Cases.notes_entry
     = lit "- notes.txt (text/plain): preview: hi\nyou"
  /\ exists preview,
       summarize_one E Cases.fs_with_notes Cases.notes_entry
       = preview_line (lit "notes.txt") (lit "text/plain") preview
       /\ List.length preview <= 1000 /\ ~ In NL preview.
Proof.
  intros E.
  assert (H1 : Str.startswith (lit "text") (da_mime Cases.notes_entry)
    || Str.endswith_any text_suffixes (da_name Cases.notes_entry) = true)
    by reflexivity.
  assert (H2 : Str.endswith (lit ".csv") (da_name Cases.notes_entry) = false)
    by reflexivity.
  assert (H3 : Cases.fs_with_notes (da_path Cases.notes_entry)
               = Content [104; 105; 10; 121; 111; 117]%N) by reflexivity.
  repeat (split; [assumption |]).
  split; [reflexivity |].
  exact (X21_text_preview_bounded E Cases.fs_with_notes Cases.notes_entry
           _ H1 H2 H3).
Defined.

Lemma generate_app_code_files (E : Env) (fs : filesystem) (brief : pystr)
  (atts : option (list Attachment)) (checks : option (list pystr))
  (round_num : Z) (prev_readme : option pystr) :
  fst (generate_app_code E fs brief atts checks round_num prev_readme)
  = fst (decode_attachments E fs (attachments_or_empty atts)).
Proof.
  unfold generate_app_code, build_context.
  destruct (decode_attachments E fs (attachments_or_empty atts)).
  reflexivity.
Qed.

(** X22: whatever the endpoint answers, and whether the call returns or
    raises, generate_app_code changes no file other than the files that the
    paths of its attachments with a data: url lead to, and the file of
    every attachment that decode_attachments saved exists when the call
    ends. *)
Theorem X22_call_writes_only_attachments (E : Env) (fs : filesystem)
  (brief : pystr) (atts : option (list Attachment))
  (checks : option (list pystr)) (round_num : Z) (prev_readme : option pystr) :
  let saved := snd (decode_attachments E fs (attachments_or_empty atts)) in
  let after := fst (generate_app_code E fs brief atts checks round_num
                      prev_readme) in
  (forall q,
     (forall att,
        In att (attachments_or_empty atts) ->
        Str.startswith (lit "data:") (url_or_empty att) = true ->
        resolve fs q <> resolve fs (Path.tmp_join (name_or_default att))) ->
     after q = fs q)
  /\ Forall (fun d => exists b, after (da_path d) = Content b) saved.
Proof.
  cbn zeta. rewrite generate_app_code_files. split.
  - intros q Hq. apply decode_attachments_frame. exact Hq.
  - clear brief checks round_num prev_readme.
    generalize (attachments_or_empty atts) as l. clear atts. intros l.
    revert fs. induction l as [|a l IH]; intros fs; [constructor |].
    rewrite decode_attachments_cons. cbn [fst snd].
    apply Forall_app. split; [| apply IH].
    apply Forall_forall. intros d Hd.
    destruct (decode_one_entry_shape E fs a d Hd)
      as [_ [_ [_ [_ [data [Hfile _]]]]]].
    exact (decode_attachments_keeps_content E l _ _ data Hfile).
Qed.

(** ** Blank fenced blocks *)

Lemma split_two_fences (pre mid last_part : pystr) :
  ~ In 96%N pre -> ~ In 96%N mid -> ~ In 96%N last_part ->
  Str.split FENCE (pre ++ FENCE ++ mid ++ FENCE ++ last_part)
  = [pre; mid; last_part].
Proof.
  intros Hpre Hmid Hlast. rewrite fence_cons.
  rewrite split_after_prefix by exact Hpre.
  rewrite split_after_prefix by exact Hmid.
  rewrite split_absent by (apply contains_first_char; exact Hlast).
  reflexivity.
Qed.

(** X23: when the first fenced block is blank, the loop goes on to the text
    after its closing fence and treats it as a block: if that text is not
    blank, the result is made from it (its first line is dropped unless it
    begins with <), not from the block. *)
Theorem X23_blank_block_skipped (pre blank next : pystr) :
  ~ In 96%N pre -> ~ In 96%N blank -> ~ In 96%N next ->
  Str.strip blank = [] -> Str.strip next <> [] ->
  _strip_code_block (pre ++ FENCE ++ blank ++ FENCE ++ next) = strip_part next.
Proof.
  intros Hpre Hblank Hnext Hb Hn. unfold _strip_code_block.
  rewrite contains_middle, (split_two_fences pre blank next Hpre Hblank Hnext).
  cbn [tl first_block]. rewrite Hb. cbn [Str.nonempty].
  destruct (Str.strip next); [congruence | reflexivity].
Qed.

Lemma X23_blank_block_skipped_witness :
  let blank := [NL] in
  let next := lit "
<p>hi</p>" in
  ~ In 96%N (@nil char) /\ ~ In 96%N blank /\ ~ In 96%N next
  /\ Str.strip blank = [] /\ Str.strip next <> []
  /\ _strip_code_block ([] ++ FENCE ++ blank ++ FENCE ++ next)
     = lit "<p>hi</p>".
Proof.
  intros blank next.
  assert (H1 : ~ In 96%N (@nil char)) by (intros []).
  assert (H2 : ~ In 96%N blank) by (vm_compute; intuition discriminate).
  assert (H3 : ~ In 96%N next) by (vm_compute; intuition discriminate).
  assert (H4 : Str.strip blank = []) by reflexivity.
  assert (H5 : Str.strip next <> []) by (vm_compute; discriminate).
  repeat (split; [assumption |]).
  rewrite (X23_blank_block_skipped [] blank next H1 H2 H3 H4 H5).
  reflexivity.
Defined.

(** X24: when everything after the opening fence is blank, no block is
    honoured and the result is the whole text trimmed, fences included. *)
Theorem X24_only_blank_blocks (pre blank trailing : pystr) :
  ~ In 96%N pre -> ~ In 96%N blank -> ~ In 96%N trailing ->
  Str.strip blank = [] -> Str.strip trailing = [] ->
  _strip_code_block (pre ++ FENCE ++ blank ++ FENCE ++ trailing)
  = Str.strip (pre ++ FENCE ++ blank ++ FENCE ++ trailing).
Proof.
  intros Hpre Hblank Htrail Hb Ht. unfold _strip_code_block.
  rewrite contains_middle,
    (split_two_fences pre blank trailing Hpre Hblank Htrail).
  cbn [tl first_block]. rewrite Hb, Ht. reflexivity.
Qed.

Lemma X24_only_blank_blocks_witness :
  let pre := lit "See: " in
  let blank := lit " " in
  ~ In 96%N pre /\ ~ In 96%N blank /\ ~ In 96%N (@nil char)
  /\ Str.strip blank = [] /\ Str.strip (@nil char) = []
  /\ _strip_code_block (pre ++ FENCE ++ blank ++ FENCE ++ [])
     = lit "See: ``` ```".
Proof.
  intros pre blank.
  assert (H1 : ~ In 96%N pre) by (vm_compute; intuition discriminate).
  assert (H2 : ~ In 96%N blank) by (vm_compute; intuition discriminate).
  assert (H3 : ~ In 96%N (@nil char)) by (intros []).
  assert (H4 : Str.strip blank = []) by reflexivity.
  assert (H5 : Str.strip (@nil char) = []) by reflexivity.
  repeat (split; [assumption |]).
  rewrite (X24_only_blank_blocks pre blank [] H1 H2 H3 H4 H5).
  reflexivity.
Defined.
